(** * The Claude proxy server of Gromozeka: a model of [claude_proxy_server.py]

    The proxy reads one JSON document per line on standard input, forwards
    user text and interrupts to the Claude Code SDK client, and prints every
    SDK message as one line of stream-json on standard output.

    Python values are embedded as a small universe [pyval]; exceptions are
    values of [exn]; the methods of [ClaudeProxy] are functions in a monad
    that threads the object's fields and the log of observable effects
    (SDK calls and printed lines) and may raise. *)

From Stdlib Require Import ZArith List String Ascii Bool Lia.
Import ListNotations.
Open Scope string_scope.

(** ** Python values *)

(** The values that flow through the proxy: what [json.loads] returns, and
    what the fields of the SDK dataclasses hold.  A [dict] keeps its keys in
    insertion order, which is the order [json.dumps] writes them in; keys are
    unique, so [lookup] returning the first binding is the dictionary's
    lookup.  A float is carried as its IEEE-754 bit pattern: the proxy only
    copies floats and tests them for truth.  A [str] is carried as its
    UTF-8 bytes; a Python [str] can also hold a lone surrogate (the JSON
    escape [\ud83d] parses to one), which is carried as the three bytes
    [ED A0..BF xx] that the [surrogatepass] handler writes for it. *)
#[warnings="-register-all"]
Inductive pyval : Type :=
| PNone
| PBool (b : bool)
| PInt (z : Z)
| PFloat (bits : Z)
| PStr (s : string)
| PList (l : list pyval)
| PDict (d : list (string * pyval)).

Fixpoint lookup (k : string) (d : list (string * pyval)) : option pyval :=
  match d with
  | [] => None
  | (k', v) :: rest => if String.eqb k k' then Some v else lookup k rest
  end.

(** [type(v).__name__] *)
Definition py_type_name (v : pyval) : string :=
  match v with
  | PNone => "NoneType"
  | PBool _ => "bool"
  | PInt _ => "int"
  | PFloat _ => "float"
  | PStr _ => "str"
  | PList _ => "list"
  | PDict _ => "dict"
  end.

(** Truth value of an object, as [if v:], [not v] and [v or w] test it. *)
Definition py_truthy (v : pyval) : bool :=
  match v with
  | PNone => false
  | PBool b => b
  | PInt z => negb (z =? 0)%Z
  | PFloat bits => negb ((bits =? 0)%Z || (bits =? 2 ^ 63)%Z)
  | PStr s => negb (String.eqb s "")
  | PList l => match l with [] => false | _ :: _ => true end
  | PDict d => match d with [] => false | _ :: _ => true end
  end.

(** [v == "lit"] for a string literal: only a [str] equals a [str]. *)
Definition py_eq_str (v : pyval) (lit : string) : bool :=
  match v with
  | PStr s => String.eqb s lit
  | _ => false
  end.

(** [a or b] *)
Definition py_or (a b : pyval) : pyval := if py_truthy a then a else b.

(** [needle in hay] on strings. *)
Fixpoint contains_sub (needle hay : string) : bool :=
  String.prefix needle hay
  || match hay with
     | EmptyString => false
     | String _ rest => contains_sub needle rest
     end.

(** [s] holds a surrogate code point: a byte [ED] followed by a byte from
    [A0] up.  (In UTF-8 proper [ED] is followed by [80..9F].) *)
Fixpoint has_surrogate (s : string) : bool :=
  match s with
  | String a (String b _ as rest) =>
      (Ascii.eqb a "237" && (160 <=? nat_of_ascii b)%nat) || has_surrogate rest
  | _ => false
  end.

(** [json.dumps(v, ensure_ascii=False)] can be written to standard output:
    no string in [v], key or value, holds a surrogate.  Standard output
    encodes as UTF-8, strictly (Python's default). *)
Fixpoint printable (v : pyval) : bool :=
  match v with
  | PStr s => negb (has_surrogate s)
  | PList l => forallb printable l
  | PDict d =>
      forallb (fun kv => negb (has_surrogate (fst kv)) && printable (snd kv)) d
  | _ => true
  end.
Arguments printable : simpl never.

(** ** Exceptions *)

(** The exception classes that occur.  Each carries what [str(e)] is made
    from.  [SDKError] stands for any [Exception] subclass the SDK client
    raises; [CancelledError] is [asyncio.CancelledError], which derives from
    [BaseException] only. *)
Inductive exn : Type :=
| JSONDecodeError (msg : string)
| UnicodeDecodeError (msg : string)
| UnicodeEncodeError (msg : string)
| ValueError (msg : string)
| TypeError (msg : string)
| KeyError (key : string)
| AttributeError (msg : string)
| SDKError (msg : string)
| CancelledError.

(** [isinstance(e, Exception)] *)
Definition is_Exception (e : exn) : bool :=
  match e with
  | CancelledError => false
  | _ => true
  end.

(** [str(e)] *)
Definition exn_str (e : exn) : string :=
  match e with
  | JSONDecodeError msg => msg
  | UnicodeDecodeError msg => msg
  | UnicodeEncodeError msg => msg
  | ValueError msg => msg
  | TypeError msg => msg
  | KeyError key => "'" ++ key ++ "'"
  | AttributeError msg => msg
  | SDKError msg => msg
  | CancelledError => ""
  end.

Inductive result (A : Type) : Type :=
| Ok (a : A)
| Raise (e : exn).
Arguments Ok {A} a.
Arguments Raise {A} e.

Definition dq : string := String "034"%char EmptyString.

(** ** Operations on Python values that may raise

    The messages are CPython's wording; nothing below depends on them. *)

(** [v.get(k, default)]: only a [dict] has the method. *)
Definition py_get (v : pyval) (k : string) (default : pyval) : result pyval :=
  match v with
  | PDict d => Ok (match lookup k d with Some x => x | None => default end)
  | _ => Raise (AttributeError
                  ("'" ++ py_type_name v ++ "' object has no attribute 'get'"))
  end.

(** [v[k]] for a string key [k]. *)
Definition py_getitem (v : pyval) (k : string) : result pyval :=
  match v with
  | PDict d => match lookup k d with
               | Some x => Ok x
               | None => Raise (KeyError k)
               end
  | PList _ => Raise (TypeError "list indices must be integers or slices, not str")
  | PStr _ => Raise (TypeError "string indices must be integers, not 'str'")
  | _ => Raise (TypeError ("'" ++ py_type_name v ++ "' object is not subscriptable"))
  end.

(** [k in v] for a string [k]: key membership in a [dict], element
    membership in a [list], substring test in a [str]. *)
Definition py_contains (v : pyval) (k : string) : result bool :=
  match v with
  | PDict d => Ok (match lookup k d with Some _ => true | None => false end)
  | PList l => Ok (existsb (fun x => py_eq_str x k) l)
  | PStr s => Ok (contains_sub k s)
  | _ => Raise (TypeError
                  ("argument of type '" ++ py_type_name v ++ "' is not iterable"))
  end.

(** The elements a [for] loop over [v] visits.  A [str] yields its
    characters and a [dict] its keys, all of them [str] objects. *)
Definition py_iter (v : pyval) : result (list pyval) :=
  match v with
  | PList l => Ok l
  | PStr s => Ok (map (fun c => PStr (String c EmptyString)) (list_ascii_of_string s))
  | PDict d => Ok (map (fun kv => PStr (fst kv)) d)
  | _ => Raise (TypeError ("'" ++ py_type_name v ++ "' object is not iterable"))
  end.

(** [acc += v] where [acc] is a [str]. *)
Definition py_str_iadd (acc : string) (v : pyval) : result string :=
  match v with
  | PStr s => Ok (acc ++ s)
  | _ => Raise (TypeError ("can only concatenate str (not " ++ dq
                             ++ py_type_name v ++ dq ++ ") to str"))
  end.

(** ** SDK objects *)

(** A content block object.  The dataclasses annotate their fields, but
    Python does not enforce annotations, so a field holds any value.
    [OtherBlock] is any object that is none of the four classes. *)
Inductive block : Type :=
| TextBlock (text : pyval)
| ToolUseBlock (id name input : pyval)
| ToolResultBlock (tool_use_id content is_error : pyval)
| ThinkingBlock (thinking signature : pyval)
| OtherBlock (type_name : string).

(** The [content] attribute of a message: a [str], a [list] of block
    objects, or any other object, of which only [str(content)] is used. *)
Inductive content : Type :=
| ContentStr (s : string)
| ContentList (blocks : list block)
| ContentOther (rendering : string).

(** What [receive_messages] yields.  [OtherMessage] is an object of any
    other class, given by the two things the proxy reads off it:
    [type(message).__name__] and [str(message)]. *)
Inductive message : Type :=
| UserMessage (content_ : content)
| AssistantMessage (content_ : content) (model : pyval)
| SystemMessage (subtype data : pyval)
| ResultMessage (subtype duration_ms duration_api_ms is_error num_turns
                 session_id_ total_cost_usd usage result_ : pyval)
| OtherMessage (type_name rendering : string).

(** [type(message).__name__] *)
Definition message_type_name (m : message) : string :=
  match m with
  | UserMessage _ => "UserMessage"
  | AssistantMessage _ _ => "AssistantMessage"
  | SystemMessage _ _ => "SystemMessage"
  | ResultMessage _ _ _ _ _ _ _ _ _ => "ResultMessage"
  | OtherMessage type_name _ => type_name
  end.

(** ** The environment: the JSON parser and the SDK client

    [json.loads] is library code; the SDK client is a remote session.  The
    client is a state machine: a call changes it and either returns or
    raises. *)
Class Environment : Type := {
  sdk : Type;
  sdk_query : sdk -> string -> pyval -> sdk * option exn;
  sdk_interrupt : sdk -> sdk * option exn;
  json_loads : string -> result pyval
}.

(** ** The proxy object and its monad *)

Section Proxy.
Context {env : Environment}.

(** The fields [__init__] creates.  [client] is [None] until [start]
    connects. *)
Record ClaudeProxy : Type := mkProxy {
  client : option sdk;
  session_id : string;
  active_session_id : pyval;
  request_counter : Z
}.

(** [ClaudeProxy()] where [uuid] is what [str(uuid.uuid4())] returned. *)
Definition __init__ (uuid : string) : ClaudeProxy :=
  {| client := None;
     session_id := uuid;
     active_session_id := PNone;
     request_counter := 0 |}.

(** What the outside observes, in the order it happens: a call of
    [client.query], a call of [client.interrupt], and a line printed on
    standard output, logged as the record whose [json.dumps] is the line
    (every [pyval] is serialisable, so [json.dumps] returns; whether the
    line can be written is [printable]). *)
Inductive effect : Type :=
| Query (text : string) (session : pyval)
| Interrupt
| Print (record : pyval).

Record world : Type := mkWorld {
  self : ClaudeProxy;
  effects : list effect
}.

(** A computation reads and updates the world and returns or raises.  An
    exception leaves the updates made before it in place. *)
Definition M (A : Type) : Type := world -> world * result A.

Definition ret {A} (a : A) : M A := fun w => (w, Ok a).

Definition raise {A} (e : exn) : M A := fun w => (w, Raise e).

Definition bind {A B} (m : M A) (k : A -> M B) : M B :=
  fun w => match m w with
           | (w', Ok a) => k a w'
           | (w', Raise e) => (w', Raise e)
           end.

Definition lift {A} (r : result A) : M A := fun w => (w, r).

(** [try: body  except ... as e: handler e] *)
Definition try_except {A} (body : M A) (handler : exn -> M A) : M A :=
  fun w => match body w with
           | (w', Ok a) => (w', Ok a)
           | (w', Raise e) => handler e w'
           end.

Notation "x <- m ;; k" := (bind m (fun x => k))
  (at level 61, m at next level, right associativity).
Notation "m ;;; k" := (bind m (fun _ => k))
  (at level 61, right associativity).

Definition get_self : M ClaudeProxy := fun w => (w, Ok (self w)).

(** [self.active_session_id = v] *)
Definition set_active_session_id (v : pyval) : M unit :=
  fun w => ({| self := {| client := client (self w);
                          session_id := session_id (self w);
                          active_session_id := v;
                          request_counter := request_counter (self w) |};
               effects := effects w |}, Ok tt).

(** [self.client = ...] *)
Definition set_client (c : option sdk) : M unit :=
  fun w => ({| self := {| client := c;
                          session_id := session_id (self w);
                          active_session_id := active_session_id (self w);
                          request_counter := request_counter (self w) |};
               effects := effects w |}, Ok tt).

Definition emit (e : effect) : M unit :=
  fun w => ({| self := self w; effects := effects w ++ [e] |}, Ok tt).

(** What [print] raises when the text holds a surrogate.  (CPython's
    message also names the character and its position.) *)
Definition surrogates_not_allowed : exn :=
  UnicodeEncodeError
    "'utf-8' codec can't encode character: surrogates not allowed".

(** [print(json.dumps(v, ensure_ascii=False), flush=True)]: with
    [ensure_ascii=False] a surrogate goes into the text as it is, and
    encoding the text for standard output raises; nothing is written
    then. *)
Definition print_json (v : pyval) : M unit :=
  if printable v then emit (Print v) else raise surrogates_not_allowed.

Definition returned (r : option exn) : M unit :=
  match r with
  | None => ret tt
  | Some e => raise e
  end.

(** [await self.client.query(text, session_id=session)] *)
Definition client_query (text : string) (session : pyval) : M unit :=
  st <- get_self ;;
  match client st with
  | None => raise (AttributeError "'NoneType' object has no attribute 'query'")
  | Some c =>
      emit (Query text session) ;;;
      set_client (Some (fst (sdk_query c text session))) ;;;
      returned (snd (sdk_query c text session))
  end.

(** [await self.client.interrupt()] *)
Definition client_interrupt : M unit :=
  st <- get_self ;;
  match client st with
  | None => raise (AttributeError "'NoneType' object has no attribute 'interrupt'")
  | Some c =>
      emit Interrupt ;;;
      set_client (Some (fst (sdk_interrupt c))) ;;;
      returned (snd (sdk_interrupt c))
  end.

(** ** [_convert_content_blocks] *)

(** One pass of the loop body: the dict appended for a known block, nothing
    for any other object. *)
Definition convert_block (b : block) : list pyval :=
  match b with
  | TextBlock text =>
      [PDict [("type", PStr "text"); ("text", text)]]
  | ToolUseBlock id name input =>
      [PDict [("type", PStr "tool_use"); ("id", id); ("name", name);
              ("input", input)]]
  | ToolResultBlock tool_use_id content is_error =>
      [PDict [("type", PStr "tool_result"); ("tool_use_id", tool_use_id);
              ("content", content); ("is_error", is_error)]]
  | ThinkingBlock thinking signature =>
      [PDict [("type", PStr "thinking"); ("thinking", thinking);
              ("signature", signature)]]
  | OtherBlock _ => []
  end.

Definition _convert_content_blocks (c : content) : pyval :=
  match c with
  | ContentStr s => PList [PDict [("type", PStr "text"); ("text", PStr s)]]
  | ContentList blocks => PList (flat_map convert_block blocks)
  | ContentOther rendering =>
      PList [PDict [("type", PStr "text"); ("text", PStr rendering)]]
  end.

(** ** [convert_to_stream_json] *)

(** The body of the [try]. *)
Definition convert_to_stream_json_try (m : message) : M pyval :=
  match m with
  | UserMessage content_ =>
      let content := _convert_content_blocks content_ in
      st <- get_self ;;
      ret (PDict [("type", PStr "user");
                  ("message", PDict [("role", PStr "user");
                                     ("content", content)]);
                  ("session_id", active_session_id st)])
  | AssistantMessage content_ model =>
      let content := _convert_content_blocks content_ in
      st <- get_self ;;
      ret (PDict [("type", PStr "assistant");
                  ("message", PDict [("role", PStr "assistant");
                                     ("content", content);
                                     ("model", model)]);
                  ("session_id", active_session_id st)])
  | SystemMessage subtype data =>
      (if py_eq_str subtype "init" then
         has <- lift (py_contains data "session_id") ;;
         if has : bool then
           v <- lift (py_getitem data "session_id") ;;
           set_active_session_id v
         else
           st <- get_self ;;
           if negb (py_truthy (active_session_id st)) then
             set_active_session_id (PStr (session_id st))
           else ret tt
       else ret tt) ;;;
      st <- get_self ;;
      ret (PDict [("type", PStr "system");
                  ("subtype", subtype);
                  ("data", data);
                  ("session_id", active_session_id st)])
  | ResultMessage subtype duration_ms duration_api_ms is_error num_turns
                  session_id_ total_cost_usd usage result_ =>
      st <- get_self ;;
      ret (PDict [("type", PStr "result");
                  ("subtype", subtype);
                  ("duration_ms", duration_ms);
                  ("duration_api_ms", duration_api_ms);
                  ("is_error", is_error);
                  ("num_turns", num_turns);
                  ("session_id", py_or session_id_ (active_session_id st));
                  ("total_cost_usd", total_cost_usd);
                  ("usage", usage);
                  ("result", result_)])
  | OtherMessage type_name rendering =>
      ret (PDict [("type", PStr "system");
                  ("subtype", PStr "unknown_message");
                  ("data", PDict [("message_type", PStr type_name);
                                  ("content", PStr rendering)])])
  end.

(** The record the [except Exception] clause returns. *)
Definition conversion_error (e : exn) (m : message) : pyval :=
  PDict [("type", PStr "system");
         ("subtype", PStr "conversion_error");
         ("data", PDict [("error", PStr (exn_str e));
                         ("message_type", PStr (message_type_name m))])].

Definition convert_to_stream_json (m : message) : M pyval :=
  try_except (convert_to_stream_json_try m)
    (fun e => if is_Exception e then ret (conversion_error e m) else raise e).

(** ** [receive_from_claude] *)

(** What the iteration over [self.client.receive_messages()] produces
    next: a message, or an exception raised by the stream. *)
Inductive upstream_item : Type :=
| Yield (m : message)
| StreamRaises (e : exn).

(** The record printed for an unclassified error. *)
Definition error_record (e : exn) : pyval :=
  PDict [("type", PStr "system");
         ("subtype", PStr "error");
         ("data", PDict [("error", PStr (exn_str e))])].

(** One round of the [async for]: [true] when the loop goes on to the next
    item, [false] when the coroutine is over. *)
Definition receive_step (item : upstream_item) : M bool :=
  try_except
    (match item with
     | Yield m =>
         output <- convert_to_stream_json m ;;
         (if py_truthy output then print_json output else ret tt) ;;;
         ret true
     | StreamRaises e => raise e
     end)
    (fun e =>
       match e with
       | CancelledError => ret false
       | _ => print_json (error_record e) ;;; ret false
       end).

Fixpoint receive_from_claude (stream : list upstream_item) : M unit :=
  match stream with
  | [] => ret tt
  | item :: rest =>
      go_on <- receive_step item ;;
      if go_on : bool then receive_from_claude rest else ret tt
  end.

(** ** [handle_input] *)

(** Lines 195-198: the loop that builds [text_content]. *)
Fixpoint concat_text (text_content : string) (blocks : list pyval)
  : result string :=
  match blocks with
  | [] => Ok text_content
  | b :: rest =>
      match b with
      | PDict d =>
          if py_eq_str (match lookup "type" d with Some x => x | None => PNone end)
                       "text"
          then
            match py_str_iadd text_content
                    (match lookup "text" d with Some x => x | None => PStr "" end)
            with
            | Ok text_content' => concat_text text_content' rest
            | Raise e => Raise e
            end
          else concat_text text_content rest
      | _ => concat_text text_content rest
      end
  end.

Definition text_content (content_blocks : pyval) : result string :=
  match py_iter content_blocks with
  | Ok blocks => concat_text "" blocks
  | Raise e => Raise e
  end.

Definition control_response (request_id : pyval) : pyval :=
  PDict [("type", PStr "control_response");
         ("response", PDict [("request_id", request_id);
                             ("subtype", PStr "interrupt");
                             ("error", PNone)])].

Definition parse_error_record (e : exn) (line : string) : pyval :=
  PDict [("type", PStr "system");
         ("subtype", PStr "parse_error");
         ("data", PDict [("error", PStr ("Invalid JSON: " ++ exn_str e));
                         ("line", PStr line)])].

(** The body of the [try]. *)
Definition handle_input_try (line : string) : M unit :=
  data <- lift (json_loads line) ;;
  type_ <- lift (py_get data "type" PNone) ;;
  if py_eq_str type_ "user" then
    message_data <- lift (py_getitem data "message") ;;
    content_blocks <- lift (py_get message_data "content" (PList [])) ;;
    st <- get_self ;;
    session <- lift (py_get data "session_id" (PStr (session_id st))) ;;
    set_active_session_id session ;;;
    text <- lift (text_content content_blocks) ;;
    client_query text session
  else
    type_ <- lift (py_get data "type" PNone) ;;
    if py_eq_str type_ "control_request" then
      request_id <- lift (py_get data "request_id" PNone) ;;
      request <- lift (py_get data "request" (PDict [])) ;;
      subtype <- lift (py_get request "subtype" PNone) ;;
      if py_eq_str subtype "interrupt" then
        client_interrupt ;;;
        print_json (control_response request_id)
      else ret tt
    else ret tt.

Definition handle_input (line : string) : M unit :=
  try_except (handle_input_try line)
    (fun e =>
       match e with
       | JSONDecodeError _ => print_json (parse_error_record e line)
       | CancelledError => raise e
       | _ => print_json (error_record e)
       end).

(** ** [run] *)

(** What one round of the read loop gets from standard input: the text
    [line_bytes.decode('utf-8').strip()] of a line that was read, or the
    exception that [readline] or [decode] raised.  End of input is the end
    of the list. *)
Inductive stdin_read : Type :=
| ReadLine (line : string)
| ReadRaises (e : exn).

(** One round of the [while True]: [true] when the loop goes round again,
    [false] on [break]. *)
Definition read_step (r : stdin_read) : M bool :=
  try_except
    (match r with
     | ReadLine line =>
         (if negb (String.eqb line "") then handle_input line else ret tt) ;;;
         ret true
     | ReadRaises e => raise e
     end)
    (fun e =>
       match e with
       | CancelledError => ret false
       | _ => print_json (error_record e) ;;; ret true
       end).

Fixpoint read_loop (input : list stdin_read) : M unit :=
  match input with
  | [] => ret tt
  | r :: rest =>
      go_on <- read_step r ;;
      if go_on : bool then read_loop rest else ret tt
  end.

(** [start]: [c] is the client that [connect] has connected.  The receive
    task that [start] creates first runs at the next suspension of [run],
    which comes after the seeding of line 245. *)
Definition start (c : sdk) : M unit := set_client (Some c).

(** Line 245: [self.active_session_id = self.session_id] *)
Definition seed : M unit :=
  st <- get_self ;;
  set_active_session_id (PStr (session_id st)).

(** Lines 248-251 attach a [StreamReader] to standard input;
    [connect_read_pipe] raises when standard input is not a pipe, a socket
    or a character device ([ValueError] for a regular file).  [pipe] is how
    that call ends: it returns ([None]) or raises.  It stands outside the
    [try] of the loop, so what it raises leaves [run]. *)
Definition run (c : sdk) (pipe : option exn) (input : list stdin_read)
  : M unit :=
  start c ;;; seed ;;; returned pipe ;;; read_loop input.

(** ** The two loops together

    The scheduler is cooperative: between two suspension points a coroutine
    runs alone.  [handle_input] writes [active_session_id] before its only
    [await], and nothing after it reads or writes a field, so for the
    fields of the proxy a run of the process is an interleaving of whole
    rounds of the two loops. *)
Inductive event : Type :=
| Stdin (r : stdin_read)
| Claude (item : upstream_item).

(** [reading] and [receiving] tell which loops are still running. *)
Fixpoint bridge (reading receiving : bool) (evs : list event) (w : world)
  : world :=
  match evs with
  | [] => w
  | Stdin r :: rest =>
      if reading then
        match read_step r w with
        | (w', Ok go_on) => bridge go_on receiving rest w'
        | (w', Raise _) => bridge false receiving rest w'
        end
      else bridge reading receiving rest w
  | Claude item :: rest =>
      if receiving then
        match receive_step item w with
        | (w', Ok go_on) => bridge reading go_on rest w'
        | (w', Raise _) => bridge reading false rest w'
        end
      else bridge reading receiving rest w
  end.

(** The world in which the loops start: a fresh proxy, connected and
    seeded. *)
Definition seeded (uuid : string) (c : sdk) : world :=
  fst ((start c ;;; seed) {| self := __init__ uuid; effects := [] |}).

End Proxy.

(** ** A sample environment

    An SDK client that counts its calls and never raises, and the parses of
    a few lines of input; any other line is reported as not being JSON. *)

Definition q (s : string) : string := dq ++ s ++ dq.

Definition line_not_json : string := "not json".

Definition line_array : string := "[]".

Definition line_ping : string := "{" ++ q "type" ++ ": " ++ q "ping" ++ "}".

Definition line_interrupt : string :=
  "{" ++ q "type" ++ ": " ++ q "control_request" ++ ", "
      ++ q "request_id" ++ ": " ++ q "r1" ++ ", "
      ++ q "request" ++ ": {" ++ q "subtype" ++ ": " ++ q "interrupt" ++ "}}".

Definition line_request_null : string :=
  "{" ++ q "type" ++ ": " ++ q "control_request" ++ ", "
      ++ q "request_id" ++ ": " ++ q "r2" ++ ", "
      ++ q "request" ++ ": null}".

Definition line_user (session : string) : string :=
  "{" ++ q "type" ++ ": " ++ q "user" ++ ", "
      ++ q "message" ++ ": {" ++ q "role" ++ ": " ++ q "user" ++ ", "
      ++ q "content" ++ ": [{" ++ q "type" ++ ": " ++ q "text" ++ ", "
      ++ q "text" ++ ": " ++ q "What is 2 + 2?" ++ "}]}, "
      ++ q "session_id" ++ ": " ++ q session ++ "}".

Definition line_user_no_session : string :=
  "{" ++ q "type" ++ ": " ++ q "user" ++ ", "
      ++ q "message" ++ ": {" ++ q "role" ++ ": " ++ q "user" ++ ", "
      ++ q "content" ++ ": [{" ++ q "type" ++ ": " ++ q "text" ++ ", "
      ++ q "text" ++ ": " ++ q "What is 2 + 2?" ++ "}]}}".

Definition sample_message : pyval :=
  PDict [("role", PStr "user");
         ("content", PList [PDict [("type", PStr "text");
                                   ("text", PStr "What is 2 + 2?")]])].

Definition sample_user (session : string) : pyval :=
  PDict [("type", PStr "user"); ("message", sample_message);
         ("session_id", PStr session)].

Definition sample_documents : list (string * pyval) :=
  [ (line_array, PList []);
    (line_ping, PDict [("type", PStr "ping")]);
    (line_interrupt,
     PDict [("type", PStr "control_request"); ("request_id", PStr "r1");
            ("request", PDict [("subtype", PStr "interrupt")])]);
    (line_request_null,
     PDict [("type", PStr "control_request"); ("request_id", PStr "r2");
            ("request", PNone)]);
    (line_user "S2", sample_user "S2");
    (line_user "", sample_user "");
    (line_user_no_session,
     PDict [("type", PStr "user"); ("message", sample_message)]) ].

Definition sample_loads (line : string) : result pyval :=
  match lookup line sample_documents with
  | Some v => Ok v
  | None => Raise (JSONDecodeError "Expecting value: line 1 column 1 (char 0)")
  end.

Definition sample_env : Environment :=
  {| sdk := nat;
     sdk_query := fun calls _ _ => (S calls, None);
     sdk_interrupt := fun calls => (S calls, None);
     json_loads := sample_loads |}.

Definition sample_uuid : string := "1b4e28ba-2fa1-41d2-883f-0016d3cca427".

(** A second environment: the parses of a table of lines, and a client
    every call of which ends as [outcome] says: it returns ([None]) or
    raises. *)
Definition table_env (documents : list (string * pyval)) (outcome : option exn)
  : Environment :=
  {| sdk := nat;
     sdk_query := fun calls _ _ => (S calls, outcome);
     sdk_interrupt := fun calls => (S calls, outcome);
     json_loads := fun line =>
       match lookup line documents with
       | Some v => Ok v
       | None => Raise (JSONDecodeError "Expecting value: line 1 column 1 (char 0)")
       end |}.

Definition line_user_no_message : string :=
  "{" ++ q "type" ++ ": " ++ q "user" ++ ", "
      ++ q "session_id" ++ ": " ++ q "S2" ++ "}".

Definition line_user_number : string :=
  "{" ++ q "type" ++ ": " ++ q "user" ++ ", "
      ++ q "message" ++ ": {" ++ q "content" ++ ": [{" ++ q "type" ++ ": "
      ++ q "text" ++ ", " ++ q "text" ++ ": 5}]}, "
      ++ q "session_id" ++ ": " ++ q "S2" ++ "}".

Definition more_documents : list (string * pyval) :=
  [ (line_user_no_message,
     PDict [("type", PStr "user"); ("session_id", PStr "S2")]);
    (line_user_number,
     PDict [("type", PStr "user");
            ("message",
             PDict [("content",
                     PList [PDict [("type", PStr "text"); ("text", PInt 5)]])]);
            ("session_id", PStr "S2")]);
    (line_user "S2", sample_user "S2");
    (line_interrupt,
     PDict [("type", PStr "control_request"); ("request_id", PStr "r1");
            ("request", PDict [("subtype", PStr "interrupt")])]) ].

(** A third table: what Python's parser makes of two more lines.  It
    accepts [NaN], which is not JSON, as a float; and the escape [\ud83d]
    gives a string that holds a lone surrogate. *)
Definition lone_surrogate : string :=
  String "237" (String "160" (String "189" EmptyString)).




(** ** Vocabulary of the properties *)

(** The world [w] after one more effect. *)
Definition logged {env : Environment} (w : world) (e : effect) : world :=
  {| self := self w; effects := effects w ++ [e] |}.

(** The text segments of a sequence of blocks: the [text] of every
    [TextBlock], in sequence order. *)
Fixpoint texts (blocks : list block) : list string :=
  match blocks with
  | [] => []
  | TextBlock (PStr s) :: rest => s :: texts rest
  | _ :: rest => texts rest
  end.

(** Concatenation of a list of strings. *)
Definition join (l : list string) : string := fold_right append "" l.

(** Every [TextBlock] of the sequence holds a [str]. *)
Definition text_is_str (b : block) : bool :=
  match b with
  | TextBlock (PStr _) => true
  | TextBlock _ => false
  | _ => true
  end.

(** [d.get(k, default)] on the bindings of a [dict]. *)
Definition get (k : string) (d : list (string * pyval)) (default : pyval)
  : pyval :=
  match lookup k d with
  | Some x => x
  | None => default
  end.

(** A [dict] that has a [session_id] has one that is true in Python's
    sense: not [None], not the empty string. *)
Definition session_id_not_empty (v : pyval) : bool :=
  match v with
  | PDict d => match lookup "session_id" d with
               | Some x => py_truthy x
               | None => true
               end
  | _ => true
  end.

(** The events that hand the proxy a session id hand it a non-empty one:
    a line of input that is a [user] message, and an [init] message from
    upstream. *)
Definition supplies_session_id {env : Environment} (ev : event) : bool :=
  match ev with
  | Stdin (ReadLine line) =>
      match json_loads line with
      | Ok (PDict d) =>
          if py_eq_str (get "type" d PNone) "user"
          then session_id_not_empty (PDict d)
          else true
      | _ => true
      end
  | Claude (Yield (SystemMessage subtype data)) =>
      if py_eq_str subtype "init" then session_id_not_empty data else true
  | _ => true
  end.

(** The proxy has a local session id and a non-empty active session id. *)
Definition has_session {env : Environment} (w : world) : Prop :=
  session_id (self w) <> ""
  /\ py_truthy (active_session_id (self w)) = true.

(** The [type] tag the translation gives a message of each class: a
    [SystemMessage], a message of an unknown class and a failed translation
    all come out as ["system"]. *)
Definition envelope_type (m : message) : string :=
  match m with
  | UserMessage _ => "user"
  | AssistantMessage _ _ => "assistant"
  | ResultMessage _ _ _ _ _ _ _ _ _ => "result"
  | SystemMessage _ _ => "system"
  | OtherMessage _ _ => "system"
  end.

(** [isinstance(b, (TextBlock, ToolUseBlock, ToolResultBlock,
    ThinkingBlock))] *)
Definition known_block (b : block) : bool :=
  match b with
  | OtherBlock _ => false
  | _ => true
  end.

(** The [type] tag of a content block on the wire. *)
Definition wire_type (v : pyval) : option pyval :=
  match v with
  | PDict d => lookup "type" d
  | _ => None
  end.

(** The tag [_convert_content_blocks] writes for a block of each class. *)
Definition block_tag (b : block) : option pyval :=
  match b with
  | TextBlock _ => Some (PStr "text")
  | ToolUseBlock _ _ _ => Some (PStr "tool_use")
  | ToolResultBlock _ _ _ => Some (PStr "tool_result")
  | ThinkingBlock _ _ => Some (PStr "thinking")
  | OtherBlock _ => None
  end.

(** The text a message body stands for: the string itself, the texts of
    the [TextBlock]s of a list, the rendering of any other object. *)
Definition content_text (c : content) : string :=
  match c with
  | ContentStr s => s
  | ContentList blocks => join (texts blocks)
  | ContentOther rendering => rendering
  end.

Definition content_text_is_str (c : content) : bool :=
  match c with
  | ContentList blocks => forallb text_is_str blocks
  | _ => true
  end.

(** Upstream calls and printed lines among a list of effects. *)
Definition is_print (e : effect) : bool :=
  match e with
  | Print _ => true
  | _ => false
  end.

Definition calls (l : list effect) : nat :=
  List.length (filter (fun e => negb (is_print e)) l).

Definition prints (l : list effect) : nat := List.length (filter is_print l).

(** A read that gave a line with nothing on it. *)
Definition blank (r : stdin_read) : bool :=
  match r with
  | ReadLine line => String.eqb line ""
  | ReadRaises _ => false
  end.

(** The record the [except] clauses of [handle_input] print for an
    exception: a [JSONDecodeError], wherever it was raised, is reported as
    a parse error of the line. *)
Definition failure_record (e : exn) (line : string) : pyval :=
  match e with
  | JSONDecodeError msg =>
      PDict [("type", PStr "system");
             ("subtype", PStr "parse_error");
             ("data", PDict [("error", PStr ("Invalid JSON: " ++ msg));
                             ("line", PStr line)])]
  | _ =>
      PDict [("type", PStr "system");
             ("subtype", PStr "error");
             ("data", PDict [("error", PStr (exn_str e))])]
  end.

(** The records the receive loop gets for a stream of messages, each
    translated in the world the one before left. *)
Fixpoint translations {env : Environment} (ms : list message) (w : world)
  : list pyval :=
  match ms with
  | [] => []
  | m :: rest =>
      match convert_to_stream_json m w with
      | (w', Ok record) => record :: translations rest w'
      | (_, Raise _) => []
      end
  end.

(** The record is a [dict] tagged as the class of the message says. *)
Definition tagged (m : message) (record : pyval) : Prop :=
  exists envelope,
    record = PDict envelope
    /\ lookup "type" envelope = Some (PStr (envelope_type m)).


(** ** Case analyses *)

(** Case analysis on the run of [convert_to_stream_json] over a message:
    the class, whether the subtype is ["init"], what [data] is, whether it
    has a [session_id], whether the active session id is set. *)
Ltac convert_cases m w :=
  unfold convert_to_stream_json, try_except, convert_to_stream_json_try,
    bind, lift;
  destruct m as [? | ? ? | ?sub ?data | ? ? ? ? ? ? ? ? ? | ? ?]; cbn;
  try (match goal with
       | |- context [py_eq_str ?x "init"] =>
           destruct (py_eq_str x "init") eqn:?
       end; cbn);
  try (match goal with
       | |- context [py_contains ?x _] => destruct x
       end; cbn);
  try (match goal with
       | |- context [contains_sub ?a ?b] => destruct (contains_sub a b) eqn:?
       | |- context [existsb ?f ?l] => destruct (existsb f l) eqn:?
       | |- context [lookup "session_id" ?d] =>
           destruct (lookup "session_id" d) eqn:?
       end; cbn);
  try (match goal with
       | |- context [py_truthy (active_session_id (self w))] =>
           destruct (py_truthy (active_session_id (self w))) eqn:?
       end; cbn).

(** Case analysis on the run of [handle_input] over a line: what the line
    parses to, its [type], its [message] or [request], the text
    extraction, whether the client is there, how the call ends. *)
Ltac handle_cases line w :=
  unfold handle_input, try_except, handle_input_try, bind, lift;
  destruct (json_loads line) as [[ | ? | ? | ? | ? | ? | ?d] | []] eqn:?; cbn;
  try (match goal with
       | |- context [py_eq_str ?x "user"] => destruct (py_eq_str x "user") eqn:?
       end; cbn);
  try (match goal with
       | |- context [lookup "message" ?d] =>
           destruct (lookup "message" d) as [[ | ? | ? | ? | ? | ? | ?md] |] eqn:?
       end; cbn);
  try (match goal with
       | |- context [text_content ?x] =>
           destruct (text_content x) as [? | []] eqn:?
       end; cbn);
  try (match goal with
       | |- context [py_eq_str ?x "control_request"] =>
           destruct (py_eq_str x "control_request") eqn:?
       end; cbn);
  try (match goal with
       | |- context [lookup "request" ?d] =>
           destruct (lookup "request" d) as [[ | ? | ? | ? | ? | ? | ?r] |] eqn:?
       end; cbn);
  try (match goal with
       | |- context [py_eq_str ?x "interrupt"] =>
           destruct (py_eq_str x "interrupt") eqn:?
       end; cbn);
  unfold client_query, client_interrupt, bind, get_self; cbn;
  try (match goal with
       | |- context [client (self w)] => destruct (client (self w)) eqn:?
       end; cbn);
  try (match goal with
       | |- context [sdk_query ?c ?t ?s] =>
           destruct (snd (sdk_query c t s)) as [[] |] eqn:?
       | |- context [sdk_interrupt ?c] =>
           destruct (snd (sdk_interrupt c)) as [[] |] eqn:?
       end; cbn);
  unfold print_json;
  repeat (match goal with
          | |- context [printable ?v] => destruct (printable v) eqn:?
          end; cbn);
  try (exfalso;
       match goal with
       | H : printable _ = false |- _ => vm_compute in H; discriminate H
       end).

(** * Properties *)

(** ** Translation of upstream messages *)

(** The body of [convert_to_stream_json] raises nothing but [TypeError]:
    the only operations that can fail are the membership test and the
    subscript on [message.data], and both come before any assignment. *)
Lemma convert_try_raises_TypeError {env : Environment}
      (m : message) (w : world) (e : exn) :
  snd (convert_to_stream_json_try m w) = Raise e ->
  fst (convert_to_stream_json_try m w) = w /\ exists msg, e = TypeError msg.
Proof.
  destruct m as [c | c md | sub data | ? ? ? ? ? ? ? ? ? | tn r]; cbn;
    try discriminate.
  unfold bind, lift.
  destruct (py_eq_str sub "init"); cbn; try discriminate.
  destruct data as [ | b | z | f | s | l | d]; cbn;
    try (intros [= <-]; split; [reflexivity | eexists; reflexivity]).
  - destruct (contains_sub "session_id" s); cbn.
    + intros [= <-]; split; [reflexivity | eexists; reflexivity].
    + destruct (negb _); cbn; discriminate.
  - destruct (existsb _ l); cbn.
    + intros [= <-]; split; [reflexivity | eexists; reflexivity].
    + destruct (negb _); cbn; discriminate.
  - destruct (lookup "session_id" d); cbn; try discriminate.
    destruct (negb _); cbn; discriminate.
Qed.

(** What the translation raises is raised for a [SystemMessage], and its
    message holds no surrogate: it is made of fixed text and the name of a
    built-in type. *)
Lemma convert_try_raises_for_SystemMessage {env : Environment}
      (m : message) (w : world) (e : exn) :
  snd (convert_to_stream_json_try m w) = Raise e ->
  message_type_name m = "SystemMessage" /\ has_surrogate (exn_str e) = false.
Proof.
  destruct m as [c | c md | sub data | ? ? ? ? ? ? ? ? ? | tn r]; cbn;
    try discriminate.
  unfold bind, lift.
  destruct (py_eq_str sub "init"); cbn; try discriminate.
  destruct data as [ | b | z | f | s | l | d]; cbn;
    try (intros [= <-]; split; reflexivity).
  - destruct (contains_sub "session_id" s); cbn.
    + intros [= <-]; split; reflexivity.
    + destruct (negb _); cbn; discriminate.
  - destruct (existsb _ l); cbn.
    + intros [= <-]; split; reflexivity.
    + destruct (negb _); cbn; discriminate.
  - destruct (lookup "session_id" d); cbn; try discriminate.
    destruct (negb _); cbn; discriminate.
Qed.

(** Whether the record for an unclassified error can be printed. *)
Lemma printable_error_record (e : exn) :
  printable (error_record e) = negb (has_surrogate (exn_str e)).
Proof.
  unfold error_record, printable. cbn -[exn_str]. now rewrite !andb_true_r.
Qed.


(** C1. Whatever message arrives, [convert_to_stream_json] returns a record
    and raises nothing.  When the translation of the message raises [e]
    (which is then a [TypeError], and the message a [SystemMessage]), the
    record returned is exactly
    [{type: system, subtype: conversion_error,
      data: {error: str(e), message_type: type(message).__name__}}],
    the proxy's fields are as before, and the receive loop prints that one
    record, and nothing else, for the message and goes on to the next. *)
Theorem convert_to_stream_json_contains_errors {env : Environment}
        (m : message) (w : world) :
  (exists v, snd (convert_to_stream_json m w) = Ok v)
  /\ (forall e,
        snd (convert_to_stream_json_try m w) = Raise e ->
        let record :=
          PDict [("type", PStr "system");
                 ("subtype", PStr "conversion_error");
                 ("data", PDict [("error", PStr (exn_str e));
                                 ("message_type",
                                  PStr (message_type_name m))])] in
        convert_to_stream_json m w = (w, Ok record)
        /\ receive_step (Yield m) w
           = ({| self := self w; effects := effects w ++ [Print record] |},
              Ok true)
        /\ (exists msg, e = TypeError msg /\ exn_str e = msg)
        /\ message_type_name m = "SystemMessage").
Proof.
  assert (Hcatch : forall e,
             snd (convert_to_stream_json_try m w) = Raise e ->
             convert_to_stream_json m w
             = (w, Ok (PDict [("type", PStr "system");
                              ("subtype", PStr "conversion_error");
                              ("data", PDict [("error", PStr (exn_str e));
                                              ("message_type",
                                               PStr (message_type_name m))])]))).
  { intros e He.
    destruct (convert_try_raises_TypeError m w e He) as [Hw [msg ->]].
    unfold convert_to_stream_json, try_except.
    destruct (convert_to_stream_json_try m w) as [w' r].
    cbn in He, Hw. subst. reflexivity. }
  split.
  - destruct (snd (convert_to_stream_json_try m w)) as [v | e] eqn:E.
    + exists v. unfold convert_to_stream_json, try_except.
      destruct (convert_to_stream_json_try m w) as [w' r].
      cbn in E. subst. reflexivity.
    + eexists. now rewrite (Hcatch e eq_refl).
  - intros e He. cbv zeta.
    destruct (convert_try_raises_for_SystemMessage m w e He) as [Hname Hstr].
    destruct (convert_try_raises_TypeError m w e He) as [_ [msg ->]].
    split; [exact (Hcatch _ He) |].
    split; [| split; [now exists msg | exact Hname]].
    unfold receive_step, try_except, bind.
    rewrite (Hcatch _ He). cbn [py_truthy].
    unfold print_json, printable.
    cbn -[has_surrogate exn_str message_type_name].
    rewrite Hname, Hstr. reflexivity.
Qed.

Lemma convert_to_stream_json_contains_errors_witness :
  let w := seeded (env := sample_env) sample_uuid 0 in
  let m := SystemMessage (PStr "init") PNone in
  let e := TypeError "argument of type 'NoneType' is not iterable" in
  let record :=
    PDict [("type", PStr "system");
           ("subtype", PStr "conversion_error");
           ("data",
            PDict [("error",
                    PStr "argument of type 'NoneType' is not iterable");
                   ("message_type", PStr "SystemMessage")])] in
  snd (convert_to_stream_json_try m w) = Raise e
  /\ convert_to_stream_json m w = (w, Ok record)
  /\ receive_step (Yield m) w
     = ({| self := self w; effects := effects w ++ [Print record] |}, Ok true).
Proof.
  cbv zeta. split; [reflexivity |].
  pose proof (proj2 (convert_to_stream_json_contains_errors
                       (env := sample_env)
                       (SystemMessage (PStr "init") PNone)
                       (seeded (env := sample_env) sample_uuid 0))
                _ eq_refl) as H.
  cbv zeta in H. destruct H as [H1 [H2 _]].
  split; [exact H1 | exact H2].
Defined.

(** C2. A message of a class other than the four known ones is translated,
    without raising and without touching the proxy, to
    [{type: system, subtype: unknown_message,
      data: {message_type: type(message).__name__, content: str(message)}}].
    The receive loop prints that record and goes on to the next message;
    should the type name or the rendering hold a surrogate, the [print]
    raises, and the loop prints a [system]/[error] record for that and
    ends. *)
Theorem convert_to_stream_json_unknown_message {env : Environment}
        (type_name rendering : string) (w : world) :
  let record :=
    PDict [("type", PStr "system");
           ("subtype", PStr "unknown_message");
           ("data", PDict [("message_type", PStr type_name);
                           ("content", PStr rendering)])] in
  convert_to_stream_json (OtherMessage type_name rendering) w = (w, Ok record)
  /\ receive_step (Yield (OtherMessage type_name rendering)) w
     = if printable record
       then (logged w (Print record), Ok true)
       else (logged w
               (Print (PDict [("type", PStr "system");
                              ("subtype", PStr "error");
                              ("data",
                               PDict [("error",
                                       PStr (exn_str surrogates_not_allowed))])])),
             Ok false).
Proof.
  cbv zeta. split.
  - reflexivity.
  - unfold receive_step, try_except, bind. cbn [convert_to_stream_json].
    change (convert_to_stream_json (OtherMessage type_name rendering) w)
      with (w, Ok (PDict [("type", PStr "system");
                          ("subtype", PStr "unknown_message");
                          ("data", PDict [("message_type", PStr type_name);
                                          ("content", PStr rendering)])])).
    cbn [py_truthy]. unfold print_json.
    destruct (printable _); reflexivity.
Qed.

(** C8. A [ResultMessage] is translated, without raising and without
    touching the proxy, to a flat record: its keys are [type], the eight
    fields of the message and [session_id], all at top level and none under
    [data]; [type] is ["result"], each of the eight fields is the message's
    own value, and [session_id] is [message.session_id or
    self.active_session_id]: the message's own session id when it is present
    (not [None], not empty: true in Python's sense), else the active one. *)
Theorem convert_to_stream_json_result {env : Environment}
        (subtype duration_ms duration_api_ms is_error num_turns session
         total_cost_usd usage result_ : pyval) (w : world) :
  exists envelope,
    convert_to_stream_json
      (ResultMessage subtype duration_ms duration_api_ms is_error num_turns
                     session total_cost_usd usage result_) w
    = (w, Ok (PDict envelope))
    /\ map fst envelope
       = ["type"; "subtype"; "duration_ms"; "duration_api_ms"; "is_error";
          "num_turns"; "session_id"; "total_cost_usd"; "usage"; "result"]
    /\ lookup "type" envelope = Some (PStr "result")
    /\ lookup "subtype" envelope = Some subtype
    /\ lookup "duration_ms" envelope = Some duration_ms
    /\ lookup "duration_api_ms" envelope = Some duration_api_ms
    /\ lookup "is_error" envelope = Some is_error
    /\ lookup "num_turns" envelope = Some num_turns
    /\ lookup "total_cost_usd" envelope = Some total_cost_usd
    /\ lookup "usage" envelope = Some usage
    /\ lookup "result" envelope = Some result_
    /\ lookup "data" envelope = None
    /\ lookup "session_id" envelope
       = Some (if py_truthy session then session
               else active_session_id (self w)).
Proof.
  eexists. split; [reflexivity |].
  repeat split.
Qed.

(** ** Content blocks *)

Lemma append_assoc (a b c : string) : (a ++ b) ++ c = a ++ (b ++ c).
Proof.
  induction a as [| ch a IH]; cbn; [reflexivity | now rewrite IH].
Qed.

Lemma append_empty_r (a : string) : a ++ "" = a.
Proof.
  induction a as [| ch a IH]; cbn; [reflexivity | now rewrite IH].
Qed.

(** The extraction loop, started with [text_content] already holding
    [acc], run over the encoding of [blocks]. *)
Lemma concat_text_convert_block (blocks : list block) :
  forall acc,
    forallb text_is_str blocks = true ->
    concat_text acc (flat_map convert_block blocks)
    = Ok (acc ++ join (texts blocks)).
Proof.
  induction blocks as [| b rest IH]; intros acc Hstr.
  - cbn. now rewrite append_empty_r.
  - cbn in Hstr. apply andb_true_iff in Hstr as [Hb Hrest].
    destruct b as [text | id name input | tu c ie | th sg | tn].
    + destruct text; try discriminate Hb.
      cbn. rewrite (IH _ Hrest). now rewrite append_assoc.
    + cbn. exact (IH _ Hrest).
    + cbn. exact (IH _ Hrest).
    + cbn. exact (IH _ Hrest).
    + cbn. exact (IH _ Hrest).
Qed.

(** C3. Encoding a sequence of content blocks with
    [_convert_content_blocks] and running the text extraction of
    [handle_input] over the result gives the concatenation, in order, of
    the texts of the [TextBlock]s of the sequence; every other block is
    ignored. *)
Theorem text_content_of_converted_blocks (blocks : list block) :
  forallb text_is_str blocks = true ->
  text_content (_convert_content_blocks (ContentList blocks))
  = Ok (join (texts blocks)).
Proof.
  intros Hstr. unfold text_content. cbn.
  exact (concat_text_convert_block blocks "" Hstr).
Qed.

Lemma text_content_of_converted_blocks_witness :
  let blocks :=
    [TextBlock (PStr "2");
     ToolUseBlock (PStr "toolu_01") (PStr "Bash") (PDict [("command", PStr "bc")]);
     TextBlock (PStr "+2")] in
  forallb text_is_str blocks = true
  /\ text_content (_convert_content_blocks (ContentList blocks)) = Ok "2+2".
Proof.
  cbv zeta. split; [reflexivity |].
  apply (text_content_of_converted_blocks
           [TextBlock (PStr "2");
            ToolUseBlock (PStr "toolu_01") (PStr "Bash")
                         (PDict [("command", PStr "bc")]);
            TextBlock (PStr "+2")]).
  reflexivity.
Defined.

(** ** Input from the client *)

(** [run] on a fresh proxy, once standard input is attached, is the read
    loop started in the seeded world. *)
Lemma run_from_seeded {env : Environment}
      (uuid : string) (c : sdk) (input : list stdin_read) :
  run c None input {| self := __init__ uuid; effects := [] |}
  = read_loop input (seeded uuid c).
Proof. reflexivity. Qed.



(** What [handle_input] does to the fields of the proxy: [session_id] is
    never written, and [active_session_id] is written only by a [user]
    message, with [data.get("session_id", self.session_id)]. *)
Lemma handle_input_fields {env : Environment} (line : string) (w : world) :
  let w' := fst (handle_input line w) in
  session_id (self w') = session_id (self w)
  /\ (active_session_id (self w') = active_session_id (self w)
      \/ exists d,
           json_loads line = Ok (PDict d)
           /\ py_eq_str (get "type" d PNone) "user" = true
           /\ active_session_id (self w')
              = get "session_id" d (PStr (session_id (self w)))).
Proof.
  cbv zeta.
  handle_cases line w; (split; [reflexivity |]);
    first [ left; reflexivity
          | right; eexists; split; [reflexivity |]; split;
            [eassumption | reflexivity] ].
Qed.







(** C9, as the code has it. A line that parses to a JSON object whose
    [type] is neither ["user"] nor ["control_request"], and a
    [control_request] object whose [request] is absent or is an object with
    a subtype other than ["interrupt"]: [handle_input] prints nothing,
    calls nothing, raises nothing and leaves every field of the proxy as it
    was. *)
Theorem handle_input_ignored {env : Environment}
        (line : string) (d : list (string * pyval)) (w : world) :
  json_loads line = Ok (PDict d) ->
  (lookup "type" d <> Some (PStr "user")
   /\ lookup "type" d <> Some (PStr "control_request"))
  \/ (lookup "type" d = Some (PStr "control_request")
      /\ (lookup "request" d = None
          \/ exists r, lookup "request" d = Some (PDict r)
                       /\ lookup "subtype" r <> Some (PStr "interrupt"))) ->
  handle_input line w = (w, Ok tt).
Proof.
  intros Hloads Hcase.
  assert (Hne : forall v lit, v <> Some (PStr lit) ->
                  py_eq_str (match v with Some x => x | None => PNone end) lit
                  = false).
  { intros [[ | | | | s | | ] |] lit Hv; cbn; try reflexivity.
    apply String.eqb_neq. intros ->. now apply Hv. }
  unfold handle_input, try_except, handle_input_try, bind, lift.
  rewrite Hloads. cbn.
  destruct Hcase as [[Hu Hc] | [Hc Hreq]].
  - rewrite (Hne _ _ Hu). cbn. rewrite (Hne _ _ Hc). reflexivity.
  - rewrite Hc. cbn.
    destruct Hreq as [Hreq | [r [Hreq Hsub]]]; rewrite Hreq; cbn.
    + reflexivity.
    + rewrite (Hne _ _ Hsub). reflexivity.
Qed.

Lemma handle_input_ignored_witness :
  let w := seeded (env := sample_env) sample_uuid 0 in
  json_loads (Environment := sample_env) line_ping
  = Ok (PDict [("type", PStr "ping")])
  /\ handle_input (env := sample_env) line_ping w = (w, Ok tt).
Proof.
  cbv zeta. split; [reflexivity |].
  apply (handle_input_ignored (env := sample_env) line_ping
           [("type", PStr "ping")]); [reflexivity |].
  left. split; discriminate.
Defined.

(** C9 as stated fails. The line [[]] is valid JSON and its type is
    neither ["user"] nor ["control_request"]; the line
    [{"type": "control_request", "request_id": "r2", "request": null}] is a
    control request whose subtype is not ["interrupt"].  For each of them
    [data.get] or [request.get] raises [AttributeError], and [handle_input]
    prints a [system]/[error] record. *)
Lemma handle_input_not_ignored :
  let w := seeded (env := sample_env) sample_uuid 0 in
  json_loads (Environment := sample_env) line_array = Ok (PList [])
  /\ handle_input (env := sample_env) line_array w
     = (logged w
          (Print (PDict [("type", PStr "system");
                         ("subtype", PStr "error");
                         ("data",
                          PDict [("error",
                                  PStr "'list' object has no attribute 'get'")])])),
        Ok tt)
  /\ json_loads (Environment := sample_env) line_request_null
     = Ok (PDict [("type", PStr "control_request"); ("request_id", PStr "r2");
                  ("request", PNone)])
  /\ handle_input (env := sample_env) line_request_null w
     = (logged w
          (Print (PDict [("type", PStr "system");
                         ("subtype", PStr "error");
                         ("data",
                          PDict [("error",
                                  PStr "'NoneType' object has no attribute 'get'")])])),
        Ok tt).
Proof.
  cbv zeta. repeat split; reflexivity.
Qed.

(** ** The active session id *)

(** Printing, whether it succeeds or raises, leaves the fields alone. *)
Lemma print_json_self {env : Environment} (v : pyval) (w : world) :
  self (fst (print_json v w)) = self w.
Proof.
  unfold print_json. destruct (printable v); reflexivity.
Qed.

(** A [user] message with a [message] object gets as far as line 192:
    [active_session_id] becomes [data.get("session_id", self.session_id)],
    whatever the text extraction and the call of [client.query] do
    afterwards. *)
Lemma handle_input_user_active {env : Environment}
      (line : string) (d md : list (string * pyval)) (w : world) :
  json_loads line = Ok (PDict d) ->
  lookup "type" d = Some (PStr "user") ->
  lookup "message" d = Some (PDict md) ->
  active_session_id (self (fst (handle_input line w)))
  = get "session_id" d (PStr (session_id (self w))).
Proof.
  intros Hloads Htype Hmsg.
  unfold handle_input, try_except, handle_input_try, bind, lift.
  rewrite Hloads. cbn. rewrite Htype. cbn. rewrite Hmsg. cbn.
  fold (get "session_id" d (PStr (session_id (self w)))).
  destruct (text_content _) as [text | e]; cbn.
  - unfold client_query, bind, get_self. cbn.
    destruct (client (self w)) as [c |]; cbn;
      [| now rewrite print_json_self].
    destruct (snd (sdk_query c text _)) as [e |]; cbn; [| reflexivity].
    destruct e; cbn; rewrite ?print_json_self; reflexivity.
  - destruct e; cbn; rewrite ?print_json_self; reflexivity.
Qed.

(** An [init] message whose [data] has a [session_id]: line 103. *)
Lemma convert_init_with_session_id {env : Environment}
      (d : list (string * pyval)) (v : pyval) (w : world) :
  lookup "session_id" d = Some v ->
  active_session_id
    (self (fst (convert_to_stream_json (SystemMessage (PStr "init") (PDict d)) w)))
  = v.
Proof.
  intros Hd.
  unfold convert_to_stream_json, try_except, convert_to_stream_json_try,
    bind, lift.
  cbn. rewrite Hd. reflexivity.
Qed.

(** An [init] message whose [data] has no [session_id], when the active
    session id is set: neither branch of lines 102-105 assigns. *)
Lemma convert_init_without_session_id {env : Environment}
      (d : list (string * pyval)) (w : world) :
  lookup "session_id" d = None ->
  py_truthy (active_session_id (self w)) = true ->
  fst (convert_to_stream_json (SystemMessage (PStr "init") (PDict d)) w) = w.
Proof.
  intros Hd Hactive.
  unfold convert_to_stream_json, try_except, convert_to_stream_json_try,
    bind, lift.
  cbn. rewrite Hd. cbn. rewrite Hactive. reflexivity.
Qed.

(** C4. From the seeded proxy, whose active session id is the local one:
    an upstream [init] message whose [data] has [session_id = s1] makes the
    active session id [s1]; a client [user] message with [session_id = s2]
    handled next makes it [s2]; an upstream [init] message without
    [session_id] translated after that leaves it at [s2], not at the local
    id. *)
Theorem session_id_precedence {env : Environment}
        (uuid : string) (c : sdk) (d1 d2 md d3 : list (string * pyval))
        (line s1 s2 : string) :
  lookup "session_id" d1 = Some (PStr s1) ->
  json_loads line = Ok (PDict d2) ->
  lookup "type" d2 = Some (PStr "user") ->
  lookup "message" d2 = Some (PDict md) ->
  lookup "session_id" d2 = Some (PStr s2) ->
  s2 <> "" ->
  lookup "session_id" d3 = None ->
  let w0 := seeded uuid c in
  let w1 := fst (convert_to_stream_json
                   (SystemMessage (PStr "init") (PDict d1)) w0) in
  let w2 := fst (handle_input line w1) in
  let w3 := fst (convert_to_stream_json
                   (SystemMessage (PStr "init") (PDict d3)) w2) in
  active_session_id (self w0) = PStr uuid
  /\ active_session_id (self w1) = PStr s1
  /\ active_session_id (self w2) = PStr s2
  /\ active_session_id (self w3) = PStr s2.
Proof.
  intros H1 Hloads Htype Hmsg H2 Hs2 H3 w0 w1 w2 w3.
  assert (A2 : active_session_id (self w2) = PStr s2).
  { unfold w2. rewrite (handle_input_user_active line d2 md w1 Hloads Htype Hmsg).
    unfold get. now rewrite H2. }
  repeat split.
  - unfold w1. now apply convert_init_with_session_id.
  - exact A2.
  - unfold w3. rewrite convert_init_without_session_id; [exact A2 | exact H3 |].
    rewrite A2. cbn. apply String.eqb_neq in Hs2. now rewrite Hs2.
Qed.

Lemma session_id_precedence_witness :
  let init1 := SystemMessage (PStr "init") (PDict [("session_id", PStr "S1")]) in
  let init3 := SystemMessage (PStr "init") (PDict [("cwd", PStr "/tmp")]) in
  let w0 := seeded (env := sample_env) sample_uuid 0 in
  let w1 := fst (convert_to_stream_json init1 w0) in
  let w2 := fst (handle_input (line_user "S2") w1) in
  let w3 := fst (convert_to_stream_json init3 w2) in
  json_loads (Environment := sample_env) (line_user "S2") = Ok (sample_user "S2")
  /\ active_session_id (self w0) = PStr sample_uuid
  /\ active_session_id (self w1) = PStr "S1"
  /\ active_session_id (self w2) = PStr "S2"
  /\ active_session_id (self w3) = PStr "S2".
Proof.
  cbv zeta. split; [reflexivity |].
  apply (session_id_precedence (env := sample_env) sample_uuid 0%nat
           [("session_id", PStr "S1")]
           [("type", PStr "user"); ("message", sample_message);
            ("session_id", PStr "S2")]
           [("role", PStr "user");
            ("content", PList [PDict [("type", PStr "text");
                                      ("text", PStr "What is 2 + 2?")]])]
           [("cwd", PStr "/tmp")]
           (line_user "S2") "S1" "S2");
    try reflexivity.
  discriminate.
Defined.

(** C10. A client [user] message (a JSON object of type ["user"] with a
    [message] object) that has no [session_id]: [handle_input] sets the
    active session id to the local id generated at start-up, whatever it
    was before. *)
Theorem handle_input_user_without_session_id {env : Environment}
        (line : string) (d md : list (string * pyval)) (w : world) :
  json_loads line = Ok (PDict d) ->
  lookup "type" d = Some (PStr "user") ->
  lookup "message" d = Some (PDict md) ->
  lookup "session_id" d = None ->
  active_session_id (self (fst (handle_input line w)))
  = PStr (session_id (self w)).
Proof.
  intros Hloads Htype Hmsg Hnone.
  rewrite (handle_input_user_active line d md w Hloads Htype Hmsg).
  unfold get. now rewrite Hnone.
Qed.

Lemma handle_input_user_without_session_id_witness :
  let init1 := SystemMessage (PStr "init") (PDict [("session_id", PStr "S1")]) in
  let w1 := fst (convert_to_stream_json init1
                   (seeded (env := sample_env) sample_uuid 0)) in
  json_loads (Environment := sample_env) line_user_no_session
  = Ok (PDict [("type", PStr "user"); ("message", sample_message)])
  /\ active_session_id (self w1) = PStr "S1"
  /\ active_session_id (self (fst (handle_input line_user_no_session w1)))
     = PStr sample_uuid.
Proof.
  cbv zeta. split; [reflexivity |]. split; [reflexivity |].
  apply (handle_input_user_without_session_id (env := sample_env)
           line_user_no_session
           [("type", PStr "user"); ("message", sample_message)]
           [("role", PStr "user");
            ("content", PList [PDict [("type", PStr "text");
                                      ("text", PStr "What is 2 + 2?")]])]);
    reflexivity.
Defined.

(** What [convert_to_stream_json] does to the fields of the proxy:
    [session_id] is never written, and [active_session_id] is written only
    for an [init] message, with [data["session_id"]] when [data] is a
    [dict] that has one, or with the local id when the active id is
    unset. *)
Lemma convert_to_stream_json_fields {env : Environment}
      (m : message) (w : world) :
  let w' := fst (convert_to_stream_json m w) in
  session_id (self w') = session_id (self w)
  /\ (active_session_id (self w') = active_session_id (self w)
      \/ exists subtype data,
           m = SystemMessage subtype data
           /\ py_eq_str subtype "init" = true
           /\ ((exists d v, data = PDict d
                            /\ lookup "session_id" d = Some v
                            /\ active_session_id (self w') = v)
               \/ (py_truthy (active_session_id (self w)) = false
                   /\ active_session_id (self w')
                      = PStr (session_id (self w))))).
Proof.
  cbv zeta.
  destruct m as [c | c md | sub data | ? ? ? ? ? ? ? ? ? | tn r];
    try (cbn; auto; fail).
  unfold convert_to_stream_json, try_except, convert_to_stream_json_try,
    bind, lift.
  destruct (py_eq_str sub "init") eqn:Hinit; [| cbn; auto].
  destruct data as [ | b | z | f | s | l | d]; cbn; auto.
  - destruct (contains_sub "session_id" s); cbn; auto.
    destruct (py_truthy (active_session_id (self w))) eqn:Hactive; cbn; auto.
    split; [reflexivity |]. right. exists sub, (PStr s). auto.
  - destruct (existsb _ l); cbn; auto.
    destruct (py_truthy (active_session_id (self w))) eqn:Hactive; cbn; auto.
    split; [reflexivity |]. right. exists sub, (PList l). auto.
  - destruct (lookup "session_id" d) as [v |] eqn:Hd; cbn.
    + split; [reflexivity |]. right. exists sub, (PDict d).
      split; [reflexivity |]. split; [exact Hinit |]. left. exists d, v. auto.
    + destruct (py_truthy (active_session_id (self w))) eqn:Hactive; cbn; auto.
      split; [reflexivity |]. right. exists sub, (PDict d). auto.
Qed.

(** A round of the read loop leaves the fields as [handle_input] leaves
    them: whatever else happens in the round is printing. *)
Lemma read_step_self {env : Environment} (r : stdin_read) (w : world) :
  self (fst (read_step r w))
  = match r with
    | ReadLine line =>
        if String.eqb line "" then self w
        else self (fst (handle_input line w))
    | ReadRaises _ => self w
    end.
Proof.
  unfold read_step, try_except, bind.
  destruct r as [line | e].
  - destruct (String.eqb line ""); cbn; [reflexivity |].
    destruct (handle_input line w) as [w1 [[] | e]]; cbn; [reflexivity |].
    destruct e; cbn; unfold print_json; try destruct (printable _);
      reflexivity.
  - cbn. destruct e; cbn; unfold print_json; try destruct (printable _);
      reflexivity.
Qed.

(** A round of the receive loop leaves the fields as
    [convert_to_stream_json] leaves them. *)
Lemma receive_step_self {env : Environment} (item : upstream_item) (w : world) :
  self (fst (receive_step item w))
  = match item with
    | Yield m => self (fst (convert_to_stream_json m w))
    | StreamRaises _ => self w
    end.
Proof.
  unfold receive_step, try_except, bind.
  destruct item as [m | e].
  - destruct (convert_to_stream_json m w) as [w1 [v | e]]; cbn.
    + destruct (py_truthy v); [| reflexivity].
      unfold print_json. destruct (printable v); cbn; [reflexivity |].
      destruct (printable _); reflexivity.
    + destruct e; cbn; unfold print_json; try destruct (printable _);
        reflexivity.
  - cbn. destruct e; cbn; unfold print_json; try destruct (printable _);
      reflexivity.
Qed.

Lemma read_step_has_session {env : Environment} (r : stdin_read) (w : world) :
  supplies_session_id (Stdin r) = true ->
  has_session w -> has_session (fst (read_step r w)).
Proof.
  unfold has_session. intros Hev [Hlocal Hactive].
  rewrite (read_step_self r w).
  destruct r as [line | e]; [| auto].
  destruct (String.eqb line ""); [auto |].
  destruct (handle_input_fields line w) as [Hsid [Hsame | [d [Hloads [Huser Hset]]]]];
    rewrite Hsid.
  - rewrite Hsame. auto.
  - split; [exact Hlocal |]. rewrite Hset.
    cbn in Hev. rewrite Hloads, Huser in Hev. unfold get.
    destruct (lookup "session_id" d) as [v |]; [exact Hev |].
    cbn. apply String.eqb_neq in Hlocal. now rewrite Hlocal.
Qed.

Lemma receive_step_has_session {env : Environment}
      (item : upstream_item) (w : world) :
  supplies_session_id (Claude item) = true ->
  has_session w -> has_session (fst (receive_step item w)).
Proof.
  unfold has_session. intros Hev [Hlocal Hactive].
  rewrite (receive_step_self item w).
  destruct item as [m | e]; [| auto].
  destruct (convert_to_stream_json_fields m w)
    as [Hsid [Hsame | [sub [data [-> [Hinit [[d [v [-> [Hd Hset]]]] | [Hunset _]]]]]]]];
    rewrite Hsid.
  - rewrite Hsame. auto.
  - split; [exact Hlocal |]. rewrite Hset.
    cbn in Hev. now rewrite Hinit, Hd in Hev.
  - congruence.
Qed.

Lemma bridge_has_session {env : Environment} (evs : list event) :
  forall (reading receiving : bool) (w : world),
    forallb supplies_session_id evs = true ->
    has_session w -> has_session (bridge reading receiving evs w).
Proof.
  induction evs as [| ev rest IH]; intros reading receiving w Hevs Hw;
    [exact Hw |].
  cbn in Hevs. apply andb_true_iff in Hevs as [Hev Hrest].
  destruct ev as [r | item]; cbn [bridge].
  - destruct reading; [| now apply IH].
    pose proof (read_step_has_session r w Hev Hw) as Hw'.
    destruct (read_step r w) as [w' [go_on | e]]; now apply IH.
  - destruct receiving; [| now apply IH].
    pose proof (receive_step_has_session item w Hev Hw) as Hw'.
    destruct (receive_step item w) as [w' [go_on | e]]; now apply IH.
Qed.

(** C5, as the code has it. Once [run] has seeded it, the active session
    id is never empty or [None] again, after any interleaving of rounds of
    the read loop and of the receive loop, provided every session id the
    proxy is handed is itself non-empty: the [session_id] of a client
    [user] message and the [session_id] in the [data] of an upstream [init]
    message, where there is one. *)
Theorem active_session_id_never_empty {env : Environment}
        (uuid : string) (c : sdk) (evs : list event) :
  uuid <> "" ->
  forallb supplies_session_id evs = true ->
  py_truthy (active_session_id (self (bridge true true evs (seeded uuid c))))
  = true.
Proof.
  intros Huuid Hevs.
  apply (bridge_has_session evs true true (seeded uuid c) Hevs).
  split; [exact Huuid |].
  cbn. apply String.eqb_neq in Huuid. now rewrite Huuid.
Qed.

Lemma active_session_id_never_empty_witness :
  let evs :=
    [Claude (Yield (SystemMessage (PStr "init")
                                  (PDict [("session_id", PStr "S1")])));
     Stdin (ReadLine line_not_json);
     Stdin (ReadLine (line_user "S2"));
     Claude (Yield (SystemMessage (PStr "init") (PDict [("cwd", PStr "/tmp")])));
     Stdin (ReadLine line_user_no_session)] in
  sample_uuid <> ""
  /\ forallb (supplies_session_id (env := sample_env)) evs = true
  /\ py_truthy
       (active_session_id
          (self (bridge (env := sample_env) true true evs
                   (seeded (env := sample_env) sample_uuid 0))))
     = true.
Proof.
  cbv zeta. split; [discriminate |]. split; [reflexivity |].
  apply (active_session_id_never_empty (env := sample_env)); [discriminate |].
  reflexivity.
Defined.

(** C5 as stated fails. A client [user] message with [session_id = ""]
    makes the active session id the empty string, and an upstream [init]
    message whose [data] has [session_id = None] makes it [None]: both
    values are stored as they come. *)
Lemma active_session_id_emptied :
  let w0 := seeded (env := sample_env) sample_uuid 0 in
  let w1 := bridge (env := sample_env) true true
              [Stdin (ReadLine (line_user ""))] w0 in
  let w2 := bridge (env := sample_env) true true
              [Claude (Yield (SystemMessage (PStr "init")
                                            (PDict [("session_id", PNone)])))]
              w0 in
  json_loads (Environment := sample_env) (line_user "") = Ok (sample_user "")
  /\ active_session_id (self w0) = PStr sample_uuid
  /\ active_session_id (self w1) = PStr ""
  /\ active_session_id (self w2) = PNone.
Proof.
  cbv zeta. repeat split; reflexivity.
Qed.

(** * Further properties of the translation *)

Lemma bind_Ok {env : Environment} {A B : Type}
      (m : M A) (k : A -> M B) (w w' : world) (b : B) :
  bind m k w = (w', Ok b) ->
  exists w1 a, m w = (w1, Ok a) /\ k a w1 = (w', Ok b).
Proof.
  unfold bind. destruct (m w) as [w1 [a | e]]; [| discriminate].
  intros H. now exists w1, a.
Qed.

(** [convert_to_stream_json] always returns. *)
Lemma convert_to_stream_json_returns {env : Environment}
      (m : message) (w : world) :
  exists w' v, convert_to_stream_json m w = (w', Ok v).
Proof.
  unfold convert_to_stream_json, try_except.
  destruct (convert_to_stream_json_try m w) as [w' [v | e]] eqn:E.
  - now exists w', v.
  - destruct (convert_try_raises_TypeError m w e) as [_ [msg ->]];
      [now rewrite E |].
    cbn. now eexists _, _.
Qed.

(** X1. The [type] tag of the record [convert_to_stream_json] returns
    depends on the class of the message alone: ["user"], ["assistant"],
    ["result"], and ["system"] for a [SystemMessage], for a message of an
    unknown class and for a translation that failed.  The record is always
    a [dict]. *)
Theorem convert_to_stream_json_type {env : Environment}
        (m : message) (w : world) :
  exists envelope,
    snd (convert_to_stream_json m w) = Ok (PDict envelope)
    /\ lookup "type" envelope = Some (PStr (envelope_type m)).
Proof.
  unfold convert_to_stream_json, try_except.
  destruct (convert_to_stream_json_try m w) as [w' [v | e]] eqn:E.
  - destruct m as [c | c md | sub data | ? ? ? ? ? ? ? ? ? | tn r].
    3:{ unfold convert_to_stream_json_try in E.
        apply bind_Ok in E as (w1 & [] & _ & E).
        cbn in E. injection E as _ <-. eexists; split; reflexivity. }
    all: cbn in E; injection E as _ <-; eexists; split; reflexivity.
  - destruct (convert_try_raises_TypeError m w e) as [_ [msg ->]];
      [now rewrite E |].
    destruct m; cbn in E; try discriminate.
    cbn. eexists; split; reflexivity.
Qed.

Lemma py_eq_str_true (v : pyval) (lit : string) :
  py_eq_str v lit = true -> v = PStr lit.
Proof.
  destruct v; cbn; try discriminate.
  intros H. apply String.eqb_eq in H. now subst.
Qed.

(** X2. [convert_to_stream_json] prints nothing and calls nothing, and of the
    fields of the proxy it writes [active_session_id] only; unless the
    message is a [SystemMessage] of subtype ["init"] it changes nothing at
    all. *)
Theorem convert_to_stream_json_frame {env : Environment}
        (m : message) (w : world) :
  let w' := fst (convert_to_stream_json m w) in
  effects w' = effects w
  /\ client (self w') = client (self w)
  /\ session_id (self w') = session_id (self w)
  /\ request_counter (self w') = request_counter (self w)
  /\ ((forall data, m <> SystemMessage (PStr "init") data) -> w' = w).
Proof.
  cbv zeta.
  convert_cases m w; cbn;
    repeat (split; [reflexivity |]);
    try (intros _; now destruct w as [[] ?]);
    try (intros H; exfalso;
         match goal with
         | E : py_eq_str ?sub "init" = true |- _ =>
             apply py_eq_str_true in E; subst sub; eapply H; reflexivity
         end).
Qed.

Lemma convert_to_stream_json_frame_witness :
  let w := seeded (env := sample_env) sample_uuid 0 in
  let m := AssistantMessage (ContentList [TextBlock (PStr "4")])
                            (PStr "claude-sonnet") in
  (forall data, m <> SystemMessage (PStr "init") data)
  /\ fst (convert_to_stream_json m w) = w.
Proof.
  cbv zeta. split; [discriminate |].
  apply (convert_to_stream_json_frame (env := sample_env)
           (AssistantMessage (ContentList [TextBlock (PStr "4")])
                             (PStr "claude-sonnet"))
           (seeded (env := sample_env) sample_uuid 0)).
  discriminate.
Defined.

(** X3. Translating the same message a second time changes nothing more and
    gives the same record: a repeated [init] message, with or without a
    [session_id], leaves the active session id where the first one put
    it. *)
Theorem convert_to_stream_json_idempotent {env : Environment}
        (m : message) (w : world) :
  convert_to_stream_json m (fst (convert_to_stream_json m w))
  = convert_to_stream_json m w.
Proof.
  convert_cases m w; try reflexivity;
    repeat match goal with
           | H : _ = _ |- _ => rewrite H; cbn
           end;
    try reflexivity.
  all: destruct (String.eqb (session_id (self w)) ""); reflexivity.
Qed.

(** X4. The [session_id] of the record: for a user, assistant or system
    message it is the active session id as the translation leaves it (so an
    [init] message already carries the id it has just set); for a result
    message it is [message.session_id or self.active_session_id]; the
    [unknown_message] and [conversion_error] records have no [session_id]
    at all. *)
Theorem convert_to_stream_json_session_id {env : Environment}
        (m : message) (w : world) :
  exists envelope,
    snd (convert_to_stream_json m w) = Ok (PDict envelope)
    /\ lookup "session_id" envelope
       = match m, snd (convert_to_stream_json_try m w) with
         | OtherMessage _ _, _ => None
         | _, Raise _ => None
         | ResultMessage _ _ _ _ _ session _ _ _, Ok _ =>
             Some (py_or session (active_session_id (self w)))
         | _, Ok _ =>
             Some (active_session_id (self (fst (convert_to_stream_json m w))))
         end.
Proof.
  convert_cases m w; eexists; split; reflexivity.
Qed.

(** * Further properties of the content blocks *)

(** X5. Over a list, [_convert_content_blocks] writes one record for each
    block of the four known classes, in the order of the list and with the
    tag of the block's class; an object of any other class is dropped and
    leaves no trace. *)
Theorem _convert_content_blocks_tags (blocks : list block) :
  exists records,
    _convert_content_blocks (ContentList blocks) = PList records
    /\ map wire_type records = map block_tag (filter known_block blocks).
Proof.
  exists (flat_map convert_block blocks). split; [reflexivity |].
  induction blocks as [| b rest IH]; [reflexivity |].
  destruct b; cbn; now rewrite ?IH.
Qed.

(** X6. Whatever form the body of a message has (a string, a list of
    blocks, any other object), the text extraction of [handle_input] run
    over its encoding gives back the text the body stands for. *)
Theorem text_content_of_converted_content (c : content) :
  content_text_is_str c = true ->
  text_content (_convert_content_blocks c) = Ok (content_text c).
Proof.
  destruct c as [s | blocks | rendering]; intros Hstr.
  - reflexivity.
  - exact (concat_text_convert_block blocks "" Hstr).
  - reflexivity.
Qed.

Lemma text_content_of_converted_content_witness :
  content_text_is_str (ContentStr "What is 2 + 2?") = true
  /\ text_content (_convert_content_blocks (ContentStr "What is 2 + 2?"))
     = Ok "What is 2 + 2?".
Proof.
  split; [reflexivity |].
  apply (text_content_of_converted_content (ContentStr "What is 2 + 2?")).
  reflexivity.
Defined.

(** The loop passes over anything that is not a [dict]. *)
Lemma concat_text_no_dict (l : list pyval) :
  forall acc,
    forallb (fun v => match v with PDict _ => false | _ => true end) l = true ->
    concat_text acc l = Ok acc.
Proof.
  induction l as [| v rest IH]; intros acc Hl; [reflexivity |].
  cbn in Hl. apply andb_true_iff in Hl as [Hv Hrest].
  destruct v; try discriminate Hv; cbn; now apply IH.
Qed.

(** X7. The [content] of a client message that is not a list: when it is a
    string or an object, the loop visits characters or keys, none of which
    is a block, and the text sent upstream is empty; when it is [null], a
    number or a boolean, the [for] raises [TypeError]. *)
Theorem text_content_not_a_list (v : pyval) :
  match v with
  | PList _ => True
  | PStr _ | PDict _ => text_content v = Ok ""
  | _ => exists msg, text_content v = Raise (TypeError msg)
  end.
Proof.
  destruct v as [ | b | z | f | s | l | d];
    try exact I; try (eexists; reflexivity).
  - unfold text_content. cbn. apply concat_text_no_dict.
    induction (list_ascii_of_string s) as [| ch rest IH]; [reflexivity |].
    exact IH.
  - unfold text_content. cbn. apply concat_text_no_dict.
    induction d as [| kv rest IH]; [reflexivity |]. exact IH.
Qed.

(** The loop started with [acc] gives [acc] followed by what it gives
    started with the empty string. *)
Lemma concat_text_acc (l : list pyval) :
  forall acc,
    concat_text acc l
    = match concat_text "" l with
      | Ok text => Ok (acc ++ text)
      | Raise e => Raise e
      end.
Proof.
  induction l as [| v rest IH]; intros acc.
  - cbn. now rewrite append_empty_r.
  - destruct v as [ | b | z | f | s | l | d]; cbn; try apply IH.
    destruct (py_eq_str _ "text"); [| apply IH].
    destruct (match lookup "text" d with Some x => x | None => PStr "" end);
      cbn; try reflexivity.
    rewrite (IH (acc ++ s)), (IH s).
    destruct (concat_text "" rest); [| reflexivity].
    now rewrite append_assoc.
Qed.

(** X8. The text of two lists of wire blocks put end to end is the text of
    the first followed by the text of the second. *)
Theorem text_content_app (a b : list pyval) (s t : string) :
  text_content (PList a) = Ok s ->
  text_content (PList b) = Ok t ->
  text_content (PList (a ++ b)) = Ok (s ++ t).
Proof.
  unfold text_content. cbn. intros Ha Hb.
  assert (H : forall acc, concat_text acc (a ++ b)
                          = match concat_text acc a with
                            | Ok text => concat_text text b
                            | Raise e => Raise e
                            end).
  { clear. induction a as [| v rest IH]; intros acc; [reflexivity |].
    destruct v as [ | ? | ? | ? | ? | ? | d]; cbn; try apply IH.
    destruct (py_eq_str _ "text"); [| apply IH].
    destruct (py_str_iadd acc _); [apply IH | reflexivity]. }
  rewrite H, Ha, concat_text_acc, Hb. reflexivity.
Qed.

Lemma text_content_app_witness :
  let a := [PDict [("type", PStr "text"); ("text", PStr "2")];
            PDict [("type", PStr "tool_use"); ("id", PStr "toolu_01")]] in
  let b := [PDict [("type", PStr "text"); ("text", PStr "+2")]] in
  text_content (PList a) = Ok "2"
  /\ text_content (PList b) = Ok "+2"
  /\ text_content (PList (a ++ b)) = Ok "2+2".
Proof.
  cbv zeta. split; [reflexivity |]. split; [reflexivity |].
  apply (text_content_app
           [PDict [("type", PStr "text"); ("text", PStr "2")];
            PDict [("type", PStr "tool_use"); ("id", PStr "toolu_01")]]
           [PDict [("type", PStr "text"); ("text", PStr "+2")]] "2" "+2");
    reflexivity.
Defined.

(** * Further properties of [handle_input] *)

(** X9. A [user] message with a [message] object whose content yields the
    text [text], handled while the client is connected and its [query]
    returns: [handle_input] makes [data.get("session_id", self.session_id)]
    the active session id, calls [client.query] once with that text and
    that session id, prints nothing and raises nothing. *)
Theorem handle_input_user_query {env : Environment}
        (line text : string) (d md : list (string * pyval)) (c : sdk)
        (w : world) :
  let session := get "session_id" d (PStr (session_id (self w))) in
  json_loads line = Ok (PDict d) ->
  lookup "type" d = Some (PStr "user") ->
  lookup "message" d = Some (PDict md) ->
  text_content (get "content" md (PList [])) = Ok text ->
  client (self w) = Some c ->
  snd (sdk_query c text session) = None ->
  handle_input line w
  = ({| self := {| client := Some (fst (sdk_query c text session));
                   session_id := session_id (self w);
                   active_session_id := session;
                   request_counter := request_counter (self w) |};
        effects := effects w ++ [Query text session] |},
     Ok tt).
Proof.
  intros session Hloads Htype Hmsg Htext Hc Hret.
  unfold handle_input, try_except, handle_input_try, bind, lift.
  rewrite Hloads. cbn. rewrite Htype. cbn. rewrite Hmsg. cbn.
  fold (get "content" md (PList [])). rewrite Htext. cbn.
  fold (get "session_id" d (PStr (session_id (self w)))). fold session.
  unfold client_query, bind, get_self. cbn. rewrite Hc. cbn.
  rewrite Hret. reflexivity.
Qed.

Lemma handle_input_user_query_witness :
  let w := seeded (env := sample_env) sample_uuid 0 in
  json_loads (Environment := sample_env) (line_user "S2") = Ok (sample_user "S2")
  /\ handle_input (env := sample_env) (line_user "S2") w
     = (mkWorld (env := sample_env)
          (mkProxy (env := sample_env) (Some 1%nat) sample_uuid (PStr "S2") 0)
          [Query "What is 2 + 2?" (PStr "S2")],
        Ok tt).
Proof.
  cbv zeta. split; [reflexivity |].
  apply (handle_input_user_query (env := sample_env) (line_user "S2")
           "What is 2 + 2?"
           [("type", PStr "user"); ("message", sample_message);
            ("session_id", PStr "S2")]
           [("role", PStr "user");
            ("content", PList [PDict [("type", PStr "text");
                                      ("text", PStr "What is 2 + 2?")]])]
           0%nat (seeded (env := sample_env) sample_uuid 0));
    reflexivity.
Defined.

(** X10. A [user] message whose [message] is missing or is not an object:
    [data["message"]] raises [KeyError], or [message_data.get] raises
    [AttributeError], before line 192 is reached.  [handle_input] prints
    the one record [{type: system, subtype: error, data: {error: ...}}],
    the error being ['message'] or ['<type>' object has no attribute
    'get'], calls nothing, and leaves the active session id as it was, even
    when the message carries a [session_id]. *)
Theorem handle_input_user_without_message {env : Environment}
        (line : string) (d : list (string * pyval)) (w : world) :
  json_loads line = Ok (PDict d) ->
  lookup "type" d = Some (PStr "user") ->
  (forall md, lookup "message" d <> Some (PDict md)) ->
  handle_input line w
  = ({| self := self w;
        effects :=
          effects w
          ++ [Print
                (PDict
                   [("type", PStr "system");
                    ("subtype", PStr "error");
                    ("data",
                     PDict
                       [("error",
                         PStr match lookup "message" d with
                              | None => "'message'"
                              | Some v =>
                                  "'" ++ py_type_name v
                                      ++ "' object has no attribute 'get'"
                              end)])])] |},
     Ok tt).
Proof.
  intros Hloads Htype Hmsg.
  unfold handle_input, try_except, handle_input_try, bind, lift.
  rewrite Hloads. cbn. rewrite Htype. cbn.
  destruct (lookup "message" d) as [[ | b | z | f | s | l | md] |];
    try reflexivity.
  now elim (Hmsg md).
Qed.

Lemma handle_input_user_without_message_witness :
  let env := table_env more_documents None in
  let w := seeded (env := env) sample_uuid 0 in
  json_loads (Environment := env) line_user_no_message
  = Ok (PDict [("type", PStr "user"); ("session_id", PStr "S2")])
  /\ handle_input (env := env) line_user_no_message w
     = ({| self := self w;
           effects :=
             [Print (PDict [("type", PStr "system");
                            ("subtype", PStr "error");
                            ("data", PDict [("error", PStr "'message'")])])] |},
        Ok tt).
Proof.
  cbv zeta. split; [reflexivity |].
  apply (handle_input_user_without_message
           (env := table_env more_documents None) line_user_no_message
           [("type", PStr "user"); ("session_id", PStr "S2")]
           (seeded (env := table_env more_documents None) sample_uuid 0));
    [reflexivity | reflexivity | discriminate].
Defined.

(** X11. When [client.query] raises an [Exception] [e], [handle_input]
    prints one record for it after the call and returns; the session id
    stored on line 192 stays stored: a failed send is not rolled back.  The
    record is [{type: system, subtype: error, data: {error: str(e)}}],
    unless [e] is a [JSONDecodeError], which the first [except] clause
    takes for a parse error of the line. *)
Theorem handle_input_query_raises {env : Environment}
        (line text : string) (d md : list (string * pyval)) (c : sdk)
        (e : exn) (w : world) :
  let session := get "session_id" d (PStr (session_id (self w))) in
  let record :=
    match e with
    | JSONDecodeError msg =>
        PDict [("type", PStr "system");
               ("subtype", PStr "parse_error");
               ("data", PDict [("error", PStr ("Invalid JSON: " ++ msg));
                               ("line", PStr line)])]
    | _ =>
        PDict [("type", PStr "system");
               ("subtype", PStr "error");
               ("data", PDict [("error", PStr (exn_str e))])]
    end in
  json_loads line = Ok (PDict d) ->
  lookup "type" d = Some (PStr "user") ->
  lookup "message" d = Some (PDict md) ->
  text_content (get "content" md (PList [])) = Ok text ->
  client (self w) = Some c ->
  snd (sdk_query c text session) = Some e ->
  is_Exception e = true ->
  printable record = true ->
  handle_input line w
  = ({| self := {| client := Some (fst (sdk_query c text session));
                   session_id := session_id (self w);
                   active_session_id := session;
                   request_counter := request_counter (self w) |};
        effects := effects w ++ [Query text session; Print record] |},
     Ok tt).
Proof.
  intros session record Hloads Htype Hmsg Htext Hc Hraise He Hprint.
  unfold handle_input, try_except, handle_input_try, bind, lift.
  rewrite Hloads. cbn. rewrite Htype. cbn. rewrite Hmsg. cbn.
  fold (get "content" md (PList [])). rewrite Htext. cbn.
  fold (get "session_id" d (PStr (session_id (self w)))). fold session.
  unfold client_query, bind, get_self. cbn. rewrite Hc. cbn.
  rewrite Hraise. cbn.
  destruct e; try discriminate He; unfold record in Hprint;
    unfold print_json, parse_error_record, error_record;
    cbn [exn_str] in Hprint |- *; rewrite Hprint;
    unfold emit, record; cbn -[append]; rewrite <- ?app_assoc; reflexivity.
Qed.

Lemma handle_input_query_raises_witness :
  let e := SDKError "Not connected. Call connect() first." in
  let env := table_env more_documents (Some e) in
  let w := seeded (env := env) sample_uuid 0 in
  json_loads (Environment := env) (line_user "S2") = Ok (sample_user "S2")
  /\ handle_input (env := env) (line_user "S2") w
     = (mkWorld (env := env)
          (mkProxy (env := env) (Some 1%nat) sample_uuid (PStr "S2") 0)
          [Query "What is 2 + 2?" (PStr "S2");
           Print (PDict [("type", PStr "system");
                         ("subtype", PStr "error");
                         ("data",
                          PDict [("error",
                                  PStr "Not connected. Call connect() first.")])])],
        Ok tt).
Proof.
  cbv zeta. split; [reflexivity |].
  apply (handle_input_query_raises
           (env := table_env more_documents
                     (Some (SDKError "Not connected. Call connect() first.")))
           (line_user "S2") "What is 2 + 2?"
           [("type", PStr "user"); ("message", sample_message);
            ("session_id", PStr "S2")]
           [("role", PStr "user");
            ("content", PList [PDict [("type", PStr "text");
                                      ("text", PStr "What is 2 + 2?")]])]
           0%nat (SDKError "Not connected. Call connect() first."));
    reflexivity.
Defined.

(** The text extraction raises nothing but [TypeError], with a message
    made of fixed text and the name of a built-in type. *)
Lemma text_content_raises_TypeError (v : pyval) (e : exn) :
  text_content v = Raise e ->
  exists msg, e = TypeError msg /\ has_surrogate msg = false.
Proof.
  assert (H : forall l acc, concat_text acc l = Raise e ->
                            exists msg, e = TypeError msg
                                        /\ has_surrogate msg = false).
  { induction l as [| b rest IH]; intros acc; [discriminate |].
    destruct b as [ | ? | ? | ? | ? | ? | d]; cbn; try apply IH.
    destruct (py_eq_str _ "text"); [| apply IH].
    destruct (match lookup "text" d with Some x => x | None => PStr "" end);
      cbn; try (intros [= <-]; eexists; split; reflexivity).
    apply IH. }
  unfold text_content.
  destruct v; cbn; try (intros [= <-]; eexists; split; reflexivity); apply H.
Qed.

(** X12. A [user] message one of whose text blocks holds something other
    than a string, or whose content cannot be iterated: the extraction
    raises a [TypeError] [e] after line 192.  [handle_input] prints the one
    record [{type: system, subtype: error, data: {error: str(e)}}] and
    calls nothing, but the active session id has already been
    overwritten. *)
Theorem handle_input_text_raises {env : Environment}
        (line : string) (d md : list (string * pyval)) (e : exn) (w : world) :
  json_loads line = Ok (PDict d) ->
  lookup "type" d = Some (PStr "user") ->
  lookup "message" d = Some (PDict md) ->
  text_content (get "content" md (PList [])) = Raise e ->
  handle_input line w
  = ({| self := {| client := client (self w);
                   session_id := session_id (self w);
                   active_session_id :=
                     get "session_id" d (PStr (session_id (self w)));
                   request_counter := request_counter (self w) |};
        effects :=
          effects w
          ++ [Print (PDict [("type", PStr "system");
                            ("subtype", PStr "error");
                            ("data", PDict [("error", PStr (exn_str e))])])] |},
     Ok tt).
Proof.
  intros Hloads Htype Hmsg Htext.
  destruct (text_content_raises_TypeError _ _ Htext) as [msg [-> Hprint]].
  unfold handle_input, try_except, handle_input_try, bind, lift.
  rewrite Hloads. cbn. rewrite Htype. cbn. rewrite Hmsg. cbn.
  fold (get "content" md (PList [])). rewrite Htext. cbn.
  unfold print_json. rewrite printable_error_record. cbn [exn_str].
  rewrite Hprint. reflexivity.
Qed.

Lemma handle_input_text_raises_witness :
  let env := table_env more_documents None in
  let w := seeded (env := env) sample_uuid 0 in
  let e := TypeError ("can only concatenate str (not " ++ dq ++ "int" ++ dq
                        ++ ") to str") in
  text_content (PList [PDict [("type", PStr "text"); ("text", PInt 5)]])
  = Raise e
  /\ handle_input (env := env) line_user_number w
     = (mkWorld (env := env)
          (mkProxy (env := env) (Some 0%nat) sample_uuid (PStr "S2") 0)
          [Print (PDict [("type", PStr "system");
                         ("subtype", PStr "error");
                         ("data", PDict [("error", PStr (exn_str e))])])],
        Ok tt).
Proof.
  cbv zeta. split; [reflexivity |].
  exact (handle_input_text_raises (env := table_env more_documents None)
           line_user_number
           [("type", PStr "user");
            ("message",
             PDict [("content",
                     PList [PDict [("type", PStr "text"); ("text", PInt 5)]])]);
            ("session_id", PStr "S2")]
           [("content",
             PList [PDict [("type", PStr "text"); ("text", PInt 5)]])]
           (TypeError ("can only concatenate str (not " ++ dq ++ "int" ++ dq
                         ++ ") to str"))
           (seeded (env := table_env more_documents None) sample_uuid 0)
           eq_refl eq_refl eq_refl eq_refl).
Defined.

(** X13. When [client.interrupt] raises an [Exception] [e], what
    [handle_input] prints after the call is the one record
    [{type: system, subtype: error, data: {error: str(e)}}] (a parse error
    record if [e] is a [JSONDecodeError]), and no [control_response]: the
    client gets no acknowledgement of a failed interrupt. *)
Theorem handle_input_interrupt_raises {env : Environment}
        (line : string) (d r : list (string * pyval)) (c : sdk) (e : exn)
        (w : world) :
  let record :=
    match e with
    | JSONDecodeError msg =>
        PDict [("type", PStr "system");
               ("subtype", PStr "parse_error");
               ("data", PDict [("error", PStr ("Invalid JSON: " ++ msg));
                               ("line", PStr line)])]
    | _ =>
        PDict [("type", PStr "system");
               ("subtype", PStr "error");
               ("data", PDict [("error", PStr (exn_str e))])]
    end in
  json_loads line = Ok (PDict d) ->
  lookup "type" d = Some (PStr "control_request") ->
  lookup "request" d = Some (PDict r) ->
  lookup "subtype" r = Some (PStr "interrupt") ->
  client (self w) = Some c ->
  snd (sdk_interrupt c) = Some e ->
  is_Exception e = true ->
  printable record = true ->
  handle_input line w
  = ({| self := {| client := Some (fst (sdk_interrupt c));
                   session_id := session_id (self w);
                   active_session_id := active_session_id (self w);
                   request_counter := request_counter (self w) |};
        effects := effects w ++ [Interrupt; Print record] |},
     Ok tt).
Proof.
  intros record Hloads Htype Hreq Hsub Hc Hraise He Hprint.
  unfold handle_input, try_except, handle_input_try, bind, lift.
  rewrite Hloads. cbn. rewrite Htype. cbn. rewrite Hreq. cbn.
  rewrite Hsub. cbn.
  unfold client_interrupt, bind, get_self. rewrite Hc. cbn.
  rewrite Hraise. cbn.
  destruct e; try discriminate He; unfold record in Hprint;
    unfold print_json, parse_error_record, error_record;
    cbn [exn_str] in Hprint |- *; rewrite Hprint;
    unfold emit, record; cbn -[append]; rewrite <- ?app_assoc; reflexivity.
Qed.

Lemma handle_input_interrupt_raises_witness :
  let e := SDKError "Not connected. Call connect() first." in
  let env := table_env more_documents (Some e) in
  let w := seeded (env := env) sample_uuid 0 in
  snd (sdk_interrupt (Environment := env) 0%nat) = Some e
  /\ handle_input (env := env) line_interrupt w
     = (mkWorld (env := env)
          (mkProxy (env := env) (Some 1%nat) sample_uuid (PStr sample_uuid) 0)
          [Interrupt;
           Print (PDict [("type", PStr "system");
                         ("subtype", PStr "error");
                         ("data",
                          PDict [("error",
                                  PStr "Not connected. Call connect() first.")])])],
        Ok tt).
Proof.
  cbv zeta. split; [reflexivity |].
  apply (handle_input_interrupt_raises
           (env := table_env more_documents
                     (Some (SDKError "Not connected. Call connect() first.")))
           line_interrupt
           [("type", PStr "control_request"); ("request_id", PStr "r1");
            ("request", PDict [("subtype", PStr "interrupt")])]
           [("subtype", PStr "interrupt")] 0%nat
           (SDKError "Not connected. Call connect() first."));
    reflexivity.
Defined.

(** X14. [handle_input] lets no [Exception] of its [try] out.  Given a
    parser that raises nothing but [Exception]s, it returns; or it raises
    [asyncio.CancelledError], and that only when the call of [client.query]
    or [client.interrupt] it was waiting for was cancelled; or the [print]
    of its own [except] clause raises [UnicodeEncodeError], and that only
    when the record for an exception of the parser or of the client cannot
    be printed. *)
Theorem handle_input_raises_only_CancelledError {env : Environment}
        (line : string) (w : world) :
  (forall e, json_loads line = Raise e -> is_Exception e = true) ->
  snd (handle_input line w) = Ok tt
  \/ (snd (handle_input line w) = Raise CancelledError
      /\ exists c,
           client (self w) = Some c
           /\ ((exists text session,
                  snd (sdk_query c text session) = Some CancelledError)
               \/ snd (sdk_interrupt c) = Some CancelledError))
  \/ (snd (handle_input line w) = Raise surrogates_not_allowed
      /\ exists e,
           printable (failure_record e line) = false
           /\ (json_loads line = Raise e
               \/ exists c,
                    client (self w) = Some c
                    /\ ((exists text session,
                           snd (sdk_query c text session) = Some e)
                        \/ snd (sdk_interrupt c) = Some e))).
Proof.
  intros Hparser.
  handle_cases line w;
    try match goal with
        | H : text_content _ = Raise _ |- _ =>
            destruct (text_content_raises_TypeError _ _ H) as [? [Heq Hs]];
            first [ discriminate Heq
                  | injection Heq as <-;
                    match goal with
                    | H2 : printable _ = false |- _ =>
                        rewrite printable_error_record in H2;
                        cbn [exn_str] in H2; rewrite Hs in H2;
                        discriminate H2
                    end ]
        end;
    try discriminate (Hparser _ eq_refl);
    first [ left; reflexivity
          | right; left; (split; [reflexivity |]); eexists;
            (split; [reflexivity |]); eauto
          | right; right; (split; [reflexivity |]); eexists;
            (split;
             [| first [ left; reflexivity
                      | right; eexists; (split; [reflexivity |]);
                        first [ left; eexists _, _; eassumption
                              | right; eassumption ] ]]);
            match goal with
            | H : printable _ = false |- _ => exact H
            end ].
Qed.

Lemma handle_input_raises_only_CancelledError_witness :
  let env := table_env more_documents (Some CancelledError) in
  let w := seeded (env := env) sample_uuid 0 in
  json_loads (Environment := env) (line_user "S2") = Ok (sample_user "S2")
  /\ snd (handle_input (env := env) (line_user "S2") w) = Raise CancelledError.
Proof.
  cbv zeta. split; [reflexivity |].
  destruct (handle_input_raises_only_CancelledError
              (env := table_env more_documents (Some CancelledError))
              (line_user "S2")
              (seeded (env := table_env more_documents (Some CancelledError))
                      sample_uuid 0))
    as [H | [[H _] | [H _]]].
  - intros e H. discriminate H.
  - discriminate H.
  - exact H.
  - discriminate H.
Defined.

(** X15. In one call [handle_input] makes at most one call upstream and
    prints at most one line, and what it prints it prints last; everything
    it does comes after what was done before. *)
Theorem handle_input_effects {env : Environment} (line : string) (w : world) :
  exists l : list effect,
    effects (fst (handle_input line w)) = (effects w ++ l)%list
    /\ calls l <= 1
    /\ prints l <= 1
    /\ (forall record rest, l = Print record :: rest -> rest = []).
Proof.
  handle_cases line w;
    first [ exists []; split; [now rewrite app_nil_r |]
          | eexists [_; _]; split; [now rewrite <- app_assoc |]
          | eexists [_]; split; [reflexivity |] ];
    cbn; (split; [lia |]); (split; [lia |]);
    intros record rest [=]; congruence.
Qed.

(** * Further properties of the two loops *)






(** X17. Lines with nothing on them are skipped: the read loop does on an
    input what it does on the input without its blank lines. *)
Theorem read_loop_skips_blank {env : Environment} (input : list stdin_read) :
  forall w,
    read_loop input w = read_loop (filter (fun r => negb (blank r)) input) w.
Proof.
  induction input as [| r rest IH]; intros w; [reflexivity |].
  destruct r as [line | e]; cbn [filter blank].
  - destruct (String.eqb line "") eqn:Hline; cbn [negb].
    + cbn [read_loop]. unfold bind at 1. unfold read_step, try_except.
      unfold bind at 1. rewrite Hline. cbn. apply IH.
    + cbn [read_loop]. unfold bind.
      destruct (read_step (ReadLine line) w) as [w' [[] | e]];
        [apply IH | reflexivity | reflexivity].
  - cbn [negb read_loop]. unfold bind.
    destruct (read_step (ReadRaises e) w) as [w' [[] | e']];
      [apply IH | reflexivity | reflexivity].
Qed.

(** X18. When [handle_input] is cancelled, the read loop ends there,
    silently: nothing is printed for the cancellation and no later line is
    read. *)
Theorem read_loop_cancelled {env : Environment}
        (line : string) (rest : list stdin_read) (w : world) :
  line <> "" ->
  snd (handle_input line w) = Raise CancelledError ->
  read_loop (ReadLine line :: rest) w = (fst (handle_input line w), Ok tt).
Proof.
  intros Hline Hcancel. apply String.eqb_neq in Hline.
  cbn [read_loop]. unfold bind at 1. unfold read_step, try_except.
  unfold bind at 1. rewrite Hline. cbn [negb].
  destruct (handle_input line w) as [w' r]. cbn in Hcancel. subst r.
  reflexivity.
Qed.

Lemma read_loop_cancelled_witness :
  let env := table_env more_documents (Some CancelledError) in
  let w := seeded (env := env) sample_uuid 0 in
  snd (handle_input (env := env) (line_user "S2") w) = Raise CancelledError
  /\ effects (fst (read_loop (env := env)
                     [ReadLine (line_user "S2"); ReadLine line_interrupt] w))
     = [Query "What is 2 + 2?" (PStr "S2")].
Proof.
  cbv zeta. split; [reflexivity |].
  rewrite (read_loop_cancelled
             (env := table_env more_documents (Some CancelledError))
             (line_user "S2") [ReadLine line_interrupt]);
    [reflexivity | discriminate | reflexivity].
Defined.

(** The record [convert_to_stream_json] returns is a [dict] with at least
    one key, so [if output:] holds. *)
Lemma convert_to_stream_json_record {env : Environment}
      (m : message) (w : world) :
  exists binding envelope,
    snd (convert_to_stream_json m w) = Ok (PDict (binding :: envelope)).
Proof.
  convert_cases m w; eexists _, _; reflexivity.
Qed.

(** What the translation leaves alone. *)
Lemma convert_to_stream_json_keeps {env : Environment}
      (m : message) (w : world) :
  let w' := fst (convert_to_stream_json m w) in
  effects w' = effects w
  /\ session_id (self w') = session_id (self w)
  /\ request_counter (self w') = request_counter (self w).
Proof.
  cbv zeta. convert_cases m w; repeat split.
Qed.

(** The translation does not look at what has been printed or sent. *)
Lemma convert_to_stream_json_effects {env : Environment}
      (m : message) (st : ClaudeProxy) (eff eff' : list effect) :
  convert_to_stream_json m {| self := st; effects := eff' |}
  = ({| self := self (fst (convert_to_stream_json m
                             {| self := st; effects := eff |}));
        effects := eff' |},
     snd (convert_to_stream_json m {| self := st; effects := eff |})).
Proof.
  convert_cases m {| self := st; effects := eff |};
    repeat match goal with
           | |- context [py_truthy ?x] => destruct (py_truthy x)
           end;
    reflexivity.
Qed.

Lemma translations_effects {env : Environment} (ms : list message) :
  forall (st : ClaudeProxy) (eff eff' : list effect),
    translations ms {| self := st; effects := eff' |}
    = translations ms {| self := st; effects := eff |}.
Proof.
  induction ms as [| m rest IH]; intros st eff eff'; [reflexivity |].
  cbn [translations].
  rewrite (convert_to_stream_json_effects m st eff eff').
  destruct (convert_to_stream_json m {| self := st; effects := eff |})
    as [[st1 eff1] [record | e]]; cbn [fst snd self]; [| reflexivity].
  f_equal. apply IH.
Qed.

(** The translation is tagged as the class of the message says. *)
Lemma convert_to_stream_json_tagged {env : Environment}
      (m : message) (w : world) :
  exists record,
    convert_to_stream_json m w = (fst (convert_to_stream_json m w), Ok record)
    /\ tagged m record.
Proof.
  unfold tagged.
  convert_cases m w; eexists; (split; [reflexivity |]); eexists;
    split; reflexivity.
Qed.

(** A round of the receive loop on a message: it prints the translation
    and goes on; or the translation cannot be printed, and it prints the
    record of that failure and ends the loop. *)
Lemma receive_step_yield {env : Environment}
      (m : message) (w w' : world) (record : pyval) :
  convert_to_stream_json m w = (w', Ok record) ->
  tagged m record ->
  receive_step (Yield m) w
  = if printable record
    then ({| self := self w'; effects := effects w' ++ [Print record] |},
          Ok true)
    else ({| self := self w';
             effects :=
               effects w'
               ++ [Print
                     (PDict
                        [("type", PStr "system");
                         ("subtype", PStr "error");
                         ("data",
                          PDict
                            [("error",
                              PStr "'utf-8' codec can't encode character: surrogates not allowed")])])] |},
          Ok false).
Proof.
  intros Hconvert (envelope & -> & Htype).
  unfold receive_step, try_except, bind. rewrite Hconvert.
  destruct envelope as [| binding envelope]; [discriminate Htype |].
  cbn [py_truthy]. unfold print_json.
  destruct (printable (PDict (binding :: envelope))); reflexivity.
Qed.

(** X20. Over a stream of messages whose translations can all be printed,
    the receive loop prints exactly the translations, one line for each
    message and in the order of the messages (the record of each message
    is a [dict] tagged as the class of that message says), calls nothing
    upstream, and returns. *)
Theorem receive_from_claude_one_line_each {env : Environment}
        (ms : list message) :
  forall w,
    forallb printable (translations ms w) = true ->
    effects (fst (receive_from_claude (map Yield ms) w))
    = (effects w ++ map Print (translations ms w))%list
    /\ Forall2 tagged ms (translations ms w)
    /\ snd (receive_from_claude (map Yield ms) w) = Ok tt.
Proof.
  induction ms as [| m rest IH]; intros w Hprint.
  - cbn. rewrite app_nil_r. repeat split. constructor.
  - destruct (convert_to_stream_json_tagged m w) as (record & Hconvert & Htag).
    cbn [translations] in Hprint |- *. rewrite Hconvert in Hprint |- *.
    cbn [forallb] in Hprint. apply andb_true_iff in Hprint as [Hrecord Hrest].
    cbn [map receive_from_claude]. unfold bind.
    rewrite (receive_step_yield m w _ record Hconvert Htag), Hrecord.
    destruct (convert_to_stream_json_keeps m w) as [Heff _].
    set (w1 := fst (convert_to_stream_json m w)) in *.
    assert (Hsame : translations rest
                      {| self := self w1;
                         effects := effects w1 ++ [Print record] |}
                    = translations rest w1).
    { destruct w1 as [st eff]. apply translations_effects. }
    destruct (IH {| self := self w1; effects := effects w1 ++ [Print record] |})
      as (Heffects & Htagged & Hret).
    { now rewrite Hsame. }
    rewrite Hsame in Heffects, Htagged.
    rewrite Heffects, Hret. cbn [effects]. rewrite Heff, <- app_assoc.
    repeat split. now constructor.
Qed.

Lemma receive_from_claude_one_line_each_witness :
  let w := seeded (env := sample_env) sample_uuid 0 in
  let ms :=
    [SystemMessage (PStr "init") (PDict [("session_id", PStr "S1")]);
     AssistantMessage (ContentList [TextBlock (PStr "4")]) (PStr "claude-sonnet");
     ResultMessage (PStr "success") (PInt 1200) (PInt 900) (PBool false)
                   (PInt 1) (PStr "") PNone PNone (PStr "4")] in
  forallb printable (translations ms w) = true
  /\ effects (fst (receive_from_claude (map Yield ms) w))
     = [Print (PDict [("type", PStr "system"); ("subtype", PStr "init");
                      ("data", PDict [("session_id", PStr "S1")]);
                      ("session_id", PStr "S1")]);
        Print (PDict [("type", PStr "assistant");
                      ("message",
                       PDict [("role", PStr "assistant");
                              ("content",
                               PList [PDict [("type", PStr "text");
                                             ("text", PStr "4")]]);
                              ("model", PStr "claude-sonnet")]);
                      ("session_id", PStr "S1")]);
        Print (PDict [("type", PStr "result"); ("subtype", PStr "success");
                      ("duration_ms", PInt 1200);
                      ("duration_api_ms", PInt 900);
                      ("is_error", PBool false); ("num_turns", PInt 1);
                      ("session_id", PStr "S1"); ("total_cost_usd", PNone);
                      ("usage", PNone); ("result", PStr "4")])].
Proof.
  cbv zeta. split; [reflexivity |].
  rewrite (proj1 (receive_from_claude_one_line_each (env := sample_env)
                    [SystemMessage (PStr "init")
                                   (PDict [("session_id", PStr "S1")]);
                     AssistantMessage (ContentList [TextBlock (PStr "4")])
                                      (PStr "claude-sonnet");
                     ResultMessage (PStr "success") (PInt 1200) (PInt 900)
                                   (PBool false) (PInt 1) (PStr "") PNone
                                   PNone (PStr "4")]
                    (seeded (env := sample_env) sample_uuid 0) eq_refl)).
  reflexivity.
Defined.

(** After messages whose translations are printed, the loop goes on with
    what the stream has next. *)
Lemma receive_from_claude_app {env : Environment}
      (ms : list message) (items : list upstream_item) :
  forall w,
    forallb printable (translations ms w) = true ->
    receive_from_claude (map Yield ms ++ items) w
    = receive_from_claude items (fst (receive_from_claude (map Yield ms) w)).
Proof.
  induction ms as [| m rest IH]; intros w Hprint; [reflexivity |].
  destruct (convert_to_stream_json_tagged m w) as (record & Hconvert & Htag).
  cbn [translations] in Hprint. rewrite Hconvert in Hprint.
  cbn [forallb] in Hprint. apply andb_true_iff in Hprint as [Hrecord Hrest].
  cbn [map app receive_from_claude]. unfold bind.
  rewrite (receive_step_yield m w _ record Hconvert Htag), Hrecord.
  apply IH.
  destruct (fst (convert_to_stream_json m w)) as [st eff].
  cbn [self effects]. now rewrite (translations_effects rest st eff).
Qed.

(** X21. When the stream of messages raises [e], after messages whose
    translations were printed, the receive loop is over: for an
    [Exception] it prints the one record
    [{type: system, subtype: error, data: {error: str(e)}}], for a
    cancellation nothing, and in both cases nothing that the stream would
    have yielded afterwards is translated. *)
Theorem receive_from_claude_stream_raises {env : Environment}
        (ms : list message) (e : exn) (rest : list upstream_item) (w : world) :
  forallb printable (translations ms w) = true ->
  has_surrogate (exn_str e) = false ->
  receive_from_claude (map Yield ms ++ StreamRaises e :: rest) w
  = (let w' := fst (receive_from_claude (map Yield ms) w) in
     if is_Exception e
     then {| self := self w';
             effects :=
               effects w'
               ++ [Print (PDict [("type", PStr "system");
                                 ("subtype", PStr "error");
                                 ("data",
                                  PDict [("error", PStr (exn_str e))])])] |}
     else w',
     Ok tt).
Proof.
  intros Hprint He.
  rewrite (receive_from_claude_app ms _ w Hprint).
  cbn [receive_from_claude]. unfold bind at 1.
  unfold receive_step, try_except.
  destruct e; cbv beta iota; unfold raise, ret, print_json;
    rewrite ?printable_error_record, ?He; reflexivity.
Qed.

Lemma receive_from_claude_stream_raises_witness :
  let w := seeded (env := sample_env) sample_uuid 0 in
  let ms := [OtherMessage "StreamEvent" "StreamEvent(uuid='e1')"] in
  let e := SDKError "Command failed with exit code 1" in
  forallb printable (translations ms w) = true
  /\ effects (fst (receive_from_claude
                     (map Yield ms
                        ++ [StreamRaises e;
                            Yield (OtherMessage "StreamEvent"
                                                "StreamEvent(uuid='e2')")])
                     w))
     = [Print (PDict [("type", PStr "system");
                      ("subtype", PStr "unknown_message");
                      ("data",
                       PDict [("message_type", PStr "StreamEvent");
                              ("content", PStr "StreamEvent(uuid='e1')")])]);
        Print (PDict [("type", PStr "system");
                      ("subtype", PStr "error");
                      ("data",
                       PDict [("error",
                               PStr "Command failed with exit code 1")])])].
Proof.
  cbv zeta. split; [reflexivity |].
  rewrite (receive_from_claude_stream_raises (env := sample_env)
             [OtherMessage "StreamEvent" "StreamEvent(uuid='e1')"]
             (SDKError "Command failed with exit code 1")
             [Yield (OtherMessage "StreamEvent" "StreamEvent(uuid='e2')")]
             (seeded (env := sample_env) sample_uuid 0)
             eq_refl eq_refl).
  reflexivity.
Defined.

(** X23. A message whose translation cannot be printed (a string in it
    holds a lone surrogate) ends the receive loop: the [print] raises
    inside the [try] around the whole loop, the record printed instead is
    [{type: system, subtype: error, data: {error: ...}}] for the
    [UnicodeEncodeError], and nothing that the stream yields afterwards is
    translated. *)
Theorem receive_from_claude_unprintable {env : Environment}
        (ms : list message) (m : message) (rest : list upstream_item)
        (record : pyval) (w : world) :
  let w1 := fst (receive_from_claude (map Yield ms) w) in
  forallb printable (translations ms w) = true ->
  snd (convert_to_stream_json m w1) = Ok record ->
  printable record = false ->
  receive_from_claude (map Yield ms ++ Yield m :: rest) w
  = ({| self := self (fst (convert_to_stream_json m w1));
        effects :=
          effects w1
          ++ [Print
                (PDict
                   [("type", PStr "system");
                    ("subtype", PStr "error");
                    ("data",
                     PDict
                       [("error",
                         PStr "'utf-8' codec can't encode character: surrogates not allowed")])])] |},
     Ok tt).
Proof.
  intros w1 Hprint Hrecord Hbad.
  rewrite (receive_from_claude_app ms _ w Hprint). fold w1.
  destruct (convert_to_stream_json_tagged m w1) as (record' & Hconvert & Htag).
  rewrite Hconvert in Hrecord. cbn in Hrecord. injection Hrecord as ->.
  cbn [receive_from_claude]. unfold bind at 1.
  rewrite (receive_step_yield m w1 _ record Hconvert Htag), Hbad.
  destruct (convert_to_stream_json_keeps m w1) as [-> _].
  reflexivity.
Qed.

Lemma receive_from_claude_unprintable_witness :
  let w := seeded (env := sample_env) sample_uuid 0 in
  let m := OtherMessage "StreamEvent" lone_surrogate in
  printable (PDict [("type", PStr "system");
                    ("subtype", PStr "unknown_message");
                    ("data", PDict [("message_type", PStr "StreamEvent");
                                    ("content", PStr lone_surrogate)])])
  = false
  /\ receive_from_claude
       [Yield m; Yield (OtherMessage "StreamEvent" "StreamEvent(uuid='e2')")] w
     = ({| self := self w;
           effects :=
             [Print
                (PDict
                   [("type", PStr "system");
                    ("subtype", PStr "error");
                    ("data",
                     PDict
                       [("error",
                         PStr "'utf-8' codec can't encode character: surrogates not allowed")])])] |},
        Ok tt).
Proof.
  cbv zeta. split; [reflexivity |].
  exact (receive_from_claude_unprintable (env := sample_env) []
           (OtherMessage "StreamEvent" lone_surrogate)
           [Yield (OtherMessage "StreamEvent" "StreamEvent(uuid='e2')")]
           _ (seeded (env := sample_env) sample_uuid 0)
           eq_refl eq_refl eq_refl).
Defined.

(** What [handle_input] leaves alone. *)
Lemma handle_input_keeps {env : Environment} (line : string) (w : world) :
  let w' := fst (handle_input line w) in
  session_id (self w') = session_id (self w)
  /\ request_counter (self w') = request_counter (self w).
Proof.
  cbv zeta. handle_cases line w; split; reflexivity.
Qed.

(** X22. The local session id generated at start-up is never written
    again, and [request_counter] is never written at all: after any
    interleaving of rounds of the two loops both are what they were. *)
Theorem bridge_keeps_local_session_id {env : Environment} (evs : list event) :
  forall (reading receiving : bool) (w : world),
    session_id (self (bridge reading receiving evs w)) = session_id (self w)
    /\ request_counter (self (bridge reading receiving evs w))
       = request_counter (self w).
Proof.
  induction evs as [| ev rest IH]; intros reading receiving w;
    [split; reflexivity |].
  destruct ev as [r | item]; cbn [bridge].
  - destruct reading; [| apply IH].
    assert (Hstep : session_id (self (fst (read_step r w))) = session_id (self w)
                    /\ request_counter (self (fst (read_step r w)))
                       = request_counter (self w)).
    { rewrite (read_step_self r w).
      destruct r as [line | e]; [| split; reflexivity].
      destruct (String.eqb line ""); [split; reflexivity |].
      apply handle_input_keeps. }
    destruct (read_step r w) as [w' [go_on | e]]; cbn in Hstep;
      destruct Hstep as [<- <-]; apply IH.
  - destruct receiving; [| apply IH].
    assert (Hstep : session_id (self (fst (receive_step item w)))
                    = session_id (self w)
                    /\ request_counter (self (fst (receive_step item w)))
                       = request_counter (self w)).
    { rewrite (receive_step_self item w).
      destruct item as [m | e]; [| split; reflexivity].
      apply (convert_to_stream_json_keeps m w). }
    destruct (receive_step item w) as [w' [go_on | e]]; cbn in Hstep;
      destruct Hstep as [<- <-]; apply IH.
Qed.
